(** * hex-react-task4: the admin console's state logic, embedded in Rocq

    The development follows [src/App.jsx] and [src/utils/error.js]:

    - [JS]: the fragment of JavaScript's value semantics the handlers rely
      on (truthiness, [===], [Number(...)], [Array.prototype.splice]);
    - the React state of [App], the persisted credential, the backend and
      the observable effects (requests, alerts, console output);
    - one definition per handler of [App.jsx], in source order;
    - the properties of the specification, one theorem each. *)

From Stdlib Require Import ZArith Ascii String List Floats.SpecFloat.
From stdpp Require Import base option list strings gmap.

Local Open Scope string_scope.
Local Open Scope Z_scope.
Local Open Scope list_scope.

Set Warnings "-register-all".

(** ** JavaScript values *)

Module JS.

(** A JavaScript number is an IEEE 754 binary64 value. *)
Definition number : Type := spec_float.

Definition prec : Z := 53.
Definition emax : Z := 1024.

(** The values a JSON payload or a form event can put in a product field.
    Product objects themselves are maps from property names to values
    (see [Obj] below). *)
Inductive val : Type :=
  | JUndefined
  | JNull
  | JBool (b : bool)
  | JNum (n : number)
  | JStr (s : string)
  | JArr (l : list val).

Definition num_of_Z (z : Z) : number := binary_normalize prec emax z 0 false.

Definition zero : val := JNum (S754_zero false).
Definition one : val := JNum (num_of_Z 1).

(** ToBoolean: [undefined], [null], [false], [+0], [-0], [NaN] and the empty
    string are falsy; everything else, every array included, is truthy. *)
Definition truthy (v : val) : bool :=
  match v with
  | JUndefined | JNull => false
  | JBool b => b
  | JNum (S754_zero _) | JNum S754_nan => false
  | JNum _ => true
  | JStr s => negb (String.eqb s "")
  | JArr _ => true
  end.

(** [a || b] yields [a] when it is truthy and [b] otherwise. *)
Definition or_else (a b : val) : val := if truthy a then a else b.

(** [a === b]. Numbers compare as IEEE values ([NaN] differs from itself,
    [+0] equals [-0]). Arrays compare by reference: every array of the
    model stands for an object of its own (the handlers copy arrays, they
    never share or mutate one), so two arrays are never [===]. *)
Definition strict_eq (a b : val) : bool :=
  match a, b with
  | JUndefined, JUndefined => true
  | JNull, JNull => true
  | JBool x, JBool y => Bool.eqb x y
  | JNum x, JNum y => SFeqb x y
  | JStr x, JStr y => String.eqb x y
  | _, _ => false
  end.

(** *** StringToNumber *)

Definition code (c : ascii) : Z := Z.of_N (N_of_ascii c).

Definition digit_of (c : ascii) : option Z :=
  let n := code c in
  if (48 <=? n) && (n <=? 57) then Some (n - 48) else None.

Definition hex_digit_of (c : ascii) : option Z :=
  let n := code c in
  if (48 <=? n) && (n <=? 57) then Some (n - 48)
  else if (97 <=? n) && (n <=? 102) then Some (n - 87)
  else if (65 <=? n) && (n <=? 70) then Some (n - 55)
  else None.

(** The longest prefix of decimal digits, and what follows it. *)
Fixpoint span_digits (cs : list ascii) : list Z * list ascii :=
  match cs with
  | [] => ([], [])
  | c :: cs' =>
      match digit_of c with
      | Some d => let '(ds, rest) := span_digits cs' in (d :: ds, rest)
      | None => ([], cs)
      end
  end.

Definition digits_value (base : Z) (ds : list Z) : Z :=
  fold_left (fun acc d => acc * base + d) ds 0.

(** All of [cs] as digits of the given base, with at least one digit. *)
Definition radix_literal (base : Z) (cs : list ascii) : option Z :=
  match cs with
  | [] => None
  | _ =>
      ds ← mapM (fun c => d ← hex_digit_of c; guard (d <? base);; Some d) cs;
      Some (digits_value base ds)
  end.

(** ExponentPart, optional, up to the end of the literal. *)
Definition exponent_part (cs : list ascii) : option Z :=
  match cs with
  | [] => Some 0
  | c :: cs' =>
      if (code c =? 101) || (code c =? 69) then
        let '(neg, cs'') :=
          match cs' with
          | s :: r => if code s =? 45 then (true, r)
                      else if code s =? 43 then (false, r) else (false, cs')
          | [] => (false, cs')
          end in
        match span_digits cs'' with
        | (d :: ds, []) =>
            let e := digits_value 10 (d :: ds) in Some (if neg then - e else e)
        | _ => None
        end
      else None
  end.

(** StrUnsignedDecimalLiteral without [Infinity]: the digits as an integer
    [m] and a decimal exponent [k], for the value [m * 10^k]. *)
Definition unsigned_decimal (cs : list ascii) : option (Z * Z) :=
  let '(ip, r1) := span_digits cs in
  match r1 with
  | c :: r2 =>
      if code c =? 46 then
        let '(fp, r3) := span_digits r2 in
        match ip, fp with
        | [], [] => None
        | _, _ =>
            e ← exponent_part r3;
            Some (digits_value 10 (ip ++ fp), e - Z.of_nat (length fp))
        end
      else
        match ip with
        | [] => None
        | _ => e ← exponent_part r1; Some (digits_value 10 ip, e)
        end
  | [] =>
      match ip with
      | [] => None
      | _ => Some (digits_value 10 ip, 0)
      end
  end.

(** The binary64 value nearest to [m * 10^k] (ties to even), carrying the
    sign [neg]; [m] is not negative. *)
Definition round_decimal (neg : bool) (m k : Z) : number :=
  match m with
  | Zpos _ =>
      let p := if 0 <=? k then m * 10 ^ k else m in
      let q := if 0 <=? k then 1 else 10 ^ (- k) in
      let '(mz, ez, lz) := SFdiv_core_binary prec emax p 0 q 0 in
      binary_round_aux prec emax neg mz ez lz
  | _ => S754_zero neg
  end.

Definition infinity_literal : list ascii := list_ascii_of_string "Infinity".

Definition list_ascii_eqb (a b : list ascii) : bool :=
  String.eqb (string_of_list_ascii a) (string_of_list_ascii b).

Definition unsigned_literal (neg : bool) (cs : list ascii) : number :=
  if list_ascii_eqb cs infinity_literal then S754_infinity neg
  else
    match unsigned_decimal cs with
    | Some (m, k) => round_decimal neg m k
    | None => S754_nan
    end.

(** StrNumericLiteral: a signed decimal literal or an unsigned binary,
    octal or hexadecimal integer literal. *)
Definition numeric_literal (cs : list ascii) : number :=
  match cs with
  | s :: r =>
      if code s =? 45 then unsigned_literal true r
      else if code s =? 43 then unsigned_literal false r
      else
        match cs with
        | z :: x :: ds =>
            if code z =? 48 then
              let radix :=
                if (code x =? 120) || (code x =? 88) then Some 16
                else if (code x =? 111) || (code x =? 79) then Some 8
                else if (code x =? 98) || (code x =? 66) then Some 2
                else None in
              match radix with
              | Some b =>
                  match radix_literal b ds with
                  | Some n => num_of_Z n
                  | None => S754_nan
                  end
              | None => unsigned_literal false cs
              end
            else unsigned_literal false cs
        | _ => unsigned_literal false cs
        end
  | [] => S754_zero false
  end.

(** WhiteSpace and LineTerminator code points, as UTF-8 byte sequences:
    U+0009..U+000D, U+0020, U+00A0, U+1680, U+2000..U+200A, U+2028,
    U+2029, U+202F, U+205F, U+3000 and U+FEFF. *)
Definition white_space : list (list Z) :=
  [ [9]; [10]; [11]; [12]; [13]; [32]; [194; 160]; [225; 154; 128];
    [226; 128; 128]; [226; 128; 129]; [226; 128; 130]; [226; 128; 131];
    [226; 128; 132]; [226; 128; 133]; [226; 128; 134]; [226; 128; 135];
    [226; 128; 136]; [226; 128; 137]; [226; 128; 138]; [226; 128; 168];
    [226; 128; 169]; [226; 128; 175]; [226; 129; 159]; [227; 128; 128];
    [239; 187; 191] ].

Fixpoint strip_prefix (pat : list Z) (cs : list ascii) : option (list ascii) :=
  match pat, cs with
  | [], _ => Some cs
  | p :: pat', c :: cs' => if code c =? p then strip_prefix pat' cs' else None
  | _ :: _, [] => None
  end.

Definition strip_one (pats : list (list Z)) (cs : list ascii) : option (list ascii) :=
  head (omap (fun pat => strip_prefix pat cs) pats).

Fixpoint strip_many (fuel : nat) (pats : list (list Z)) (cs : list ascii) : list ascii :=
  match fuel with
  | O => cs
  | S fuel' =>
      match strip_one pats cs with
      | Some cs' => strip_many fuel' pats cs'
      | None => cs
      end
  end.

(** Every stripped sequence is at least one byte long, so [length cs]
    rounds always suffice. *)
Definition trim_start (pats : list (list Z)) (cs : list ascii) : list ascii :=
  strip_many (length cs) pats cs.

Definition trim (cs : list ascii) : list ascii :=
  rev (trim_start (map (@rev Z) white_space) (rev (trim_start white_space cs))).

(** StringToNumber on a string given by its UTF-8 bytes. *)
Definition string_to_number (s : string) : number :=
  numeric_literal (trim (list_ascii_of_string s)).

(** ToNumber. An array is first converted to a string, its elements joined
    with commas: the empty array gives the empty string, an array of two or
    more elements a string with a comma in it, which is no numeric literal,
    and a one-element array the string of its element ([null] and
    [undefined] count as empty strings, a number is printed so that it reads
    back as itself, except that [-0] prints as [0]). *)
Fixpoint to_number (v : val) : number :=
  match v with
  | JUndefined => S754_nan
  | JNull => S754_zero false
  | JBool b => if b then num_of_Z 1 else S754_zero false
  | JNum n => n
  | JStr s => string_to_number s
  | JArr [] => S754_zero false
  | JArr [x] =>
      match x with
      | JUndefined | JNull => S754_zero false
      | JBool _ => S754_nan
      | JNum (S754_zero _) => S754_zero false
      | JNum n => n
      | JStr s => string_to_number s
      | JArr _ => to_number x
      end
  | JArr _ => S754_nan
  end.

(** [a < b] on numbers. *)
Definition lt (a b : number) : bool := SFltb a b.

(** The elements of [v || []] when that is an array. A truthy [v] that is
    no array is outside the model: the handlers would read the [length] of
    a string or a number, or raise inside a state updater. *)
Definition array_or_empty (v : val) : option (list val) :=
  match v with
  | JArr l => Some l
  | _ => if truthy v then None else Some []
  end.

(** [Array.prototype.splice(start, deleteCount)] without inserted items,
    on integers: a negative [start] counts from the end, and both arguments
    are clamped to the array. The result is the array after the call. *)
Definition splice {A : Type} (start deleteCount : Z) (l : list A) : list A :=
  let len := Z.of_nat (length l) in
  let actualStart := if start <? 0 then Z.max (len + start) 0 else Z.min start len in
  let actualDeleteCount := Z.min (Z.max deleteCount 0) (len - actualStart) in
  take (Z.to_nat actualStart) l ++ drop (Z.to_nat (actualStart + actualDeleteCount)) l.

End JS.

Import JS.

(** ** Objects, errors and the backend *)

(** A plain object: a finite map from property names to values. The spread
    [{...a, ...b}] is [b ∪ a] (the union keeps the left operand's binding)
    and [{...a, k: v}] is [<[k:=v]> a]. *)
Abbreviation Obj := (gmap string val).

(** [o.k], [undefined] when the property is missing. *)
Definition get (o : Obj) (k : string) : val := default JUndefined (o !! k).

(** A template literal, kept as its pieces: literal text and substituted
    values. *)
Inductive Part : Type :=
  | Lit (s : string)
  | Sub (v : val).

Abbreviation Text := (list Part).

(** What a [catch] clause of [App.jsx] can receive: a rejected request
    (axios sets [response] when the server answered, and [response.data] to
    the answer's body) or a [TypeError] raised by a property access. Both
    are objects with a [message]. [response = Some None] is an answer
    without an object as body. *)
Record Error : Type := {
  response : option (option Obj);
  message : val;
}.

(** The properties of a fulfilled request's [res.data] that [App.jsx]
    reads, per the success shapes of the backend. *)
Record Body : Type := {
  body_message : val;
  token : val;
  expired : val;
  success : val;
  body_products : list Obj;
}.

Inductive Reply : Type :=
  | Fulfilled (data : Body)
  | Rejected (error : Error).

Inductive Client : Type := authApi | adminApi.
Inductive Method : Type := GET | POST | PUT | DELETE.

Inductive Payload : Type :=
  | NoPayload
  | Account (account : Obj)
  | Data (data : Obj).

Record Request : Type := {
  client : Client;
  method : Method;
  url : Text;
  payload : Payload;
  authorization : option val;
}.

(** What the application does to its surroundings, in order: requests,
    dialogs, console output, and the calls of [setIsAuth], which switch
    between the login page and the dashboard. *)
Inductive Event : Type :=
  | Sent (r : Request)
  | Alert (msg : Text)
  | ConsoleError (args : list val)
  | SetIsAuth (b : bool).

Definition requests (t : list Event) : list Request :=
  omap (fun ev => match ev with Sent r => Some r | _ => None end) t.

(** ** The state of [App] *)

(** 產品初始資料 *)
Definition initialProduct : Obj :=
  list_to_map
    [ ("id", JStr ""); ("title", JStr ""); ("category", JStr "");
      ("origin_price", zero); ("price", zero); ("unit", JStr "");
      ("description", JStr ""); ("content", JStr ""); ("is_enabled", zero);
      ("imageUrl", JStr ""); ("imagesUrl", JArr []) ].

(** The seven state hooks of [App], the modal instance, the persisted
    credential and the effects so far. *)
Record State : Type := {
  isAuth : bool;
  isCheckingAuth : bool;
  products : list Obj;
  templateProduct : Obj;
  tempImageInput : string;
  modeType : string;
  isLoading : bool;
  modalShown : bool;
  credential : option (val * val);
  trace : list Event;
}.

Definition initialState : State :=
  {| isAuth := false; isCheckingAuth := true; products := [];
     templateProduct := initialProduct; tempImageInput := "";
     modeType := ""; isLoading := false; modalShown := false;
     credential := None; trace := [] |}.

Definition with_isAuth (b : bool) (s : State) : State :=
  {| isAuth := b; isCheckingAuth := isCheckingAuth s; products := products s;
     templateProduct := templateProduct s; tempImageInput := tempImageInput s;
     modeType := modeType s; isLoading := isLoading s;
     modalShown := modalShown s; credential := credential s;
     trace := trace s |}.

Definition with_isCheckingAuth (b : bool) (s : State) : State :=
  {| isAuth := isAuth s; isCheckingAuth := b; products := products s;
     templateProduct := templateProduct s; tempImageInput := tempImageInput s;
     modeType := modeType s; isLoading := isLoading s;
     modalShown := modalShown s; credential := credential s;
     trace := trace s |}.

Definition with_products (l : list Obj) (s : State) : State :=
  {| isAuth := isAuth s; isCheckingAuth := isCheckingAuth s; products := l;
     templateProduct := templateProduct s; tempImageInput := tempImageInput s;
     modeType := modeType s; isLoading := isLoading s;
     modalShown := modalShown s; credential := credential s;
     trace := trace s |}.

Definition with_templateProduct (o : Obj) (s : State) : State :=
  {| isAuth := isAuth s; isCheckingAuth := isCheckingAuth s;
     products := products s; templateProduct := o;
     tempImageInput := tempImageInput s; modeType := modeType s;
     isLoading := isLoading s; modalShown := modalShown s;
     credential := credential s; trace := trace s |}.

Definition with_tempImageInput (u : string) (s : State) : State :=
  {| isAuth := isAuth s; isCheckingAuth := isCheckingAuth s;
     products := products s; templateProduct := templateProduct s;
     tempImageInput := u; modeType := modeType s; isLoading := isLoading s;
     modalShown := modalShown s; credential := credential s;
     trace := trace s |}.

Definition with_modeType (m : string) (s : State) : State :=
  {| isAuth := isAuth s; isCheckingAuth := isCheckingAuth s;
     products := products s; templateProduct := templateProduct s;
     tempImageInput := tempImageInput s; modeType := m;
     isLoading := isLoading s; modalShown := modalShown s;
     credential := credential s; trace := trace s |}.

Definition with_isLoading (b : bool) (s : State) : State :=
  {| isAuth := isAuth s; isCheckingAuth := isCheckingAuth s;
     products := products s; templateProduct := templateProduct s;
     tempImageInput := tempImageInput s; modeType := modeType s;
     isLoading := b; modalShown := modalShown s; credential := credential s;
     trace := trace s |}.

Definition with_modalShown (b : bool) (s : State) : State :=
  {| isAuth := isAuth s; isCheckingAuth := isCheckingAuth s;
     products := products s; templateProduct := templateProduct s;
     tempImageInput := tempImageInput s; modeType := modeType s;
     isLoading := isLoading s; modalShown := b; credential := credential s;
     trace := trace s |}.

Definition with_credential (c : option (val * val)) (s : State) : State :=
  {| isAuth := isAuth s; isCheckingAuth := isCheckingAuth s;
     products := products s; templateProduct := templateProduct s;
     tempImageInput := tempImageInput s; modeType := modeType s;
     isLoading := isLoading s; modalShown := modalShown s; credential := c;
     trace := trace s |}.

Definition emit (ev : Event) (s : State) : State :=
  {| isAuth := isAuth s; isCheckingAuth := isCheckingAuth s;
     products := products s; templateProduct := templateProduct s;
     tempImageInput := tempImageInput s; modeType := modeType s;
     isLoading := isLoading s; modalShown := modalShown s;
     credential := credential s; trace := trace s ++ [ev] |}.

(** ** Handlers that run to completion or raise *)

Inductive Completion (A : Type) : Type :=
  | Normal (a : A)
  | Thrown (error : Error).
Arguments Normal {A} a.
Arguments Thrown {A} error.

(** An [async] handler run on its own, from the call to the settling of
    its promise: it maps the state before to a completion and the state
    after. Other handlers do not run in between. *)
Definition Action (A : Type) : Type := State -> Completion A * State.

#[export] Instance action_ret : MRet Action :=
  fun A a s => (Normal a, s).

#[export] Instance action_bind : MBind Action :=
  fun A B f m s =>
    match m s with
    | (Normal a, s') => f a s'
    | (Thrown e, s') => (Thrown e, s')
    end.

Definition throw {A : Type} (e : Error) : Action A := fun s => (Thrown e, s).

Definition gets {A : Type} (f : State -> A) : Action A := fun s => (Normal (f s), s).

Definition modify (f : State -> State) : Action unit := fun s => (Normal tt, f s).

(** [try { body } catch (error) { handler }] *)
Definition try_catch {A : Type} (body : Action A) (handler : Error -> Action A) : Action A :=
  fun s =>
    match body s with
    | (Thrown e, s') => handler e s'
    | done => done
    end.

(** [try { body } finally { cleanup }]: the cleanup runs on both exits and
    keeps the body's completion unless it raises itself. *)
Definition try_finally {A : Type} (body : Action A) (cleanup : Action unit) : Action A :=
  fun s =>
    let '(c, s') := body s in
    match cleanup s' with
    | (Normal _, s'') => (c, s'')
    | (Thrown e, s'') => (Thrown e, s'')
    end.

Definition alert (msg : Text) : Action unit := modify (emit (Alert msg)).
Definition console_error (args : list val) : Action unit := modify (emit (ConsoleError args)).

Definition setIsAuth (b : bool) : Action unit :=
  modify (fun s => emit (SetIsAuth b) (with_isAuth b s)).
Definition setIsCheckingAuth (b : bool) : Action unit := modify (with_isCheckingAuth b).
Definition setProducts (l : list Obj) : Action unit := modify (with_products l).
Definition setIsLoading (b : bool) : Action unit := modify (with_isLoading b).
Definition setModeType (m : string) : Action unit := modify (with_modeType m).

(** Modelled from the spec: the token store of [src/utils], which is not
    among the sources. It "wraps persisted-credential read/write/clear
    (cookie-backed), with expiry"; a credential is a token and the expiry
    the backend issued. Time does not pass in the model: a credential that
    has expired is one that is no longer stored. *)
Definition getToken (s : State) : val :=
  match credential s with
  | Some (tok, _) => tok
  | None => JUndefined
  end.

Definition setToken (tok exp : val) : Action unit :=
  modify (with_credential (Some (tok, exp))).

Definition removeToken : Action unit := modify (with_credential None).

Ltac unfold_action :=
  unfold try_finally, try_catch, alert, console_error, setIsAuth,
    setIsCheckingAuth, setProducts, setIsLoading, setModeType, setToken,
    removeToken, modify, gets, throw, mbind, action_bind, mret, action_ret.

(** [src/utils/error.js] *)

(** [error?.response?.data?.message] *)
Definition response_message (error : Error) : val :=
  match response error with
  | Some (Some data) => get data "message"
  | _ => JUndefined
  end.

Definition unknown_error : string := "發生未知錯誤".

Definition getErrorMessage (error : Error) : val :=
  or_else (or_else (response_message error) (message error)) (JStr unknown_error).

(** Why an access [x.p] or a call [x.p(...)] raises a [TypeError]: [x] is
    [undefined], [x] is [null], or [x.p] is no function. The last case
    names the callee as the source writes it. *)
Inductive Failure : Type :=
  | ReadOfUndefined (property : string)
  | ReadOfNull (property : string)
  | NotAFunction (callee : string).

(** ** [src/App.jsx] *)

Section App.

(** The backend: its reply to a request, given the requests it received
    before. *)
Variable serve : list Request -> Request -> Reply.

(** The message the JavaScript engine puts in the [TypeError] for a
    failure. *)
Variable typeErrorText : Failure -> string.

Definition TypeError (failure : Failure) : Error :=
  {| response := None; message := JStr (typeErrorText failure) |}.

(** An awaited request: it goes out, and the promise is fulfilled with the
    response or rejected with an error. *)
Definition send (r : Request) : Action Body :=
  fun s =>
    let s' := emit (Sent r) s in
    match serve (requests (trace s)) r with
    | Fulfilled data => (Normal data, s')
    | Rejected error => (Thrown error, s')
    end.

(** [authApi.post(url, payload, { headers: { Authorization } })] *)
Definition auth_post (u : Text) (p : Payload) (header : option val) : Action Body :=
  send {| client := authApi; method := POST; url := u; payload := p;
          authorization := header |}.

(** A request through [adminApi]; its interceptor attaches the stored
    token, when there is one, to every request. *)
Definition admin (m : Method) (u : Text) (p : Payload) : Action Body :=
  fun s =>
    let token := getToken s in
    send {| client := adminApi; method := m; url := u; payload := p;
            authorization := if truthy token then Some token else None |} s.

(** 取得產品 *)
Definition getProducts : Action unit :=
  try_catch
    (res ← admin GET [Lit "products"] NoPayload;
     setProducts (body_products res))
    (fun error => console_error [JStr "API 錯誤:"; getErrorMessage error]).

(** [target.is_enabled === 1 ? 0 : 1] *)
Definition toggled (is_enabled : val) : val :=
  if strict_eq is_enabled one then zero else one.

(** 更新產品狀態 *)
Definition updateProductStatus (id : val) : Action unit :=
  try_catch
    (list ← gets products;
     let target := List.find (fun product => strict_eq (get product "id") id) list in
     is_enabled ← match target with
                   | Some t => mret (get t "is_enabled")
                   | None => throw (TypeError (ReadOfUndefined "is_enabled"))
                   end;
     let data := <["is_enabled" := toggled is_enabled]> (default ∅ target) in
     res ← admin PUT [Lit "product/"; Sub id] (Data data);
     alert [Sub (body_message res)];;
     modify (fun s =>
       with_products
         (map (fun item =>
                 if strict_eq (get item "id") id
                 then <["is_enabled" := get data "is_enabled"]> item
                 else item)
              (products s)) s))
    (fun error => console_error [JStr "API 錯誤:"; getErrorMessage error]).

(** 登入 *)
Definition handleLogin (account : Obj) : Action unit :=
  try_finally
    (try_catch
       (setIsLoading true;;
        res ← auth_post [Lit "admin/signin"] (Account account) None;
        setToken (token res) (expired res);;
        getProducts;;
        setIsAuth true)
       (fun error =>
          alert [Sub (getErrorMessage error); Lit "!"];;
          throw error))
    (setIsLoading false).

(** 登出. The [finally] block also deletes the [Authorization] default of
    [adminApi]; the request interceptor never reads that default, and the
    model keeps no state for it. *)
Definition handleLogout : Action unit :=
  try_finally
    (try_catch
       (setIsLoading true;;
        token ← gets getToken;
        (if truthy token
         then _ ← auth_post [Lit "logout"] NoPayload (Some token); mret tt
         else mret tt);;
        alert [Lit "已成功登出！"])
       (fun error => console_error [JStr "API 錯誤:"; getErrorMessage error]))
    (removeToken;;
     setIsAuth false;;
     setProducts [];;
     setIsLoading false).

(** 檢查管理員權限 *)
Definition checkAdmin : Action unit :=
  try_finally
    (try_catch
       (setIsLoading true;;
        setIsCheckingAuth true;;
        token ← gets getToken;
        if negb (truthy token) then setIsAuth false
        else
          res ← auth_post [Lit "api/user/check"] NoPayload (Some token);
          if truthy (success res)
          then getProducts;; setIsAuth true
          else setIsAuth false)
       (fun error =>
          alert [Lit "請重新登入！Token 驗證失敗："; Sub (getErrorMessage error)];;
          setIsAuth false))
    (setIsLoading false;;
     setIsCheckingAuth false).

(** [e.target] of a change event on a form control. *)
Record Target : Type := {
  name : string;
  value : string;
  checked : bool;
  type : string;
}.

(** 拿到 Modal 內的產品 input 的 value *)
Definition handleModalInputChange (e : Target) (s : State) : State :=
  let newValue :=
    if String.eqb (type e) "checkbox" then JBool (checked e)
    else if String.eqb (type e) "number" then
      let numValue := to_number (JStr (value e)) in
      if String.eqb (value e) "" then JStr ""
      else if lt numValue (S754_zero false) then zero
      else JStr (value e)
    else JStr (value e) in
  with_templateProduct (<[name e := newValue]> (templateProduct s)) s.

(** [(currentMain ? 1 : 0) + currentSubs.length] *)
Definition totalImages (currentMain : val) (currentSubs : list val) : Z :=
  (if truthy currentMain then 1 else 0) + Z.of_nat (length currentSubs).

(** 新增圖片邏輯 (限制最多 4 張). [None]: the draft's [imagesUrl] is
    outside the model (see [array_or_empty]). *)
Definition handleAddImage (s : State) : option State :=
  if String.eqb (tempImageInput s) "" then Some s
  else
    let currentMain := get (templateProduct s) "imageUrl" in
    currentSubs ← array_or_empty (get (templateProduct s) "imagesUrl");
    if 4 <=? totalImages currentMain currentSubs
    then Some (emit (Alert [Lit "最多只能上傳 4 張圖片"]) s)
    else
      let prev := templateProduct s in
      let next :=
        if negb (truthy (get prev "imageUrl"))
        then <["imageUrl" := JStr (tempImageInput s)]> prev
        else <["imagesUrl" := JArr (currentSubs ++ [JStr (tempImageInput s)])]> prev in
      Some (with_tempImageInput "" (with_templateProduct next s)).

(** 刪除圖片邏輯 (重要：處理遞補) *)
Definition handleRemoveImage (index : Z) (s : State) : option State :=
  currentSubs ← array_or_empty (get (templateProduct s) "imagesUrl");
  let prev := templateProduct s in
  if index =? 0 then
    let newMain := match currentSubs with x :: _ => x | [] => JStr "" end in
    Some (with_templateProduct
            (<["imagesUrl" := JArr (tail currentSubs)]> (<["imageUrl" := newMain]> prev)) s)
  else
    Some (with_templateProduct
            (<["imagesUrl" := JArr (splice (index - 1) 1 currentSubs)]> prev) s).

(** 衍生狀態：將主圖與副圖合併成一個陣列方便渲染 *)
Definition allImages (s : State) : option (list val) :=
  if truthy (get (templateProduct s) "imageUrl")
  then currentSubs ← array_or_empty (get (templateProduct s) "imagesUrl");
       Some (get (templateProduct s) "imageUrl" :: currentSubs)
  else Some [].

(** 彈窗開關狀態. [product] is [None] when the argument is left out, and
    the parameter's default applies. *)
Definition openModal (mode : string) (product : option Obj) (s : State) : State :=
  with_modalShown true
    (with_templateProduct (default initialProduct product ∪ initialProduct)
       (with_modeType mode s)).

Definition closeModal (s : State) : State := with_modalShown false s.

(** 送出的資料: the object under [data] that [updateProduct] builds first.
    [filter] is a method of arrays only: on [undefined] and on [null] the
    access to [filter] raises, and on a boolean, a number or a string the
    access yields [undefined] and the call raises. *)
Definition productData (draft : Obj) : Completion Obj :=
  match get draft "imagesUrl" with
  | JArr l =>
      Normal
        (<["imagesUrl" := JArr (List.filter (fun u => negb (strict_eq u (JStr ""))) l)]>
           (<["is_enabled" := if truthy (get draft "is_enabled") then one else zero]>
              (<["price" := JNum (to_number (get draft "price"))]>
                 (<["origin_price" := JNum (to_number (get draft "origin_price"))]>
                    draft))))
  | JUndefined => Thrown (TypeError (ReadOfUndefined "filter"))
  | JNull => Thrown (TypeError (ReadOfNull "filter"))
  | JBool _ | JNum _ | JStr _ =>
      Thrown (TypeError (NotAFunction "templateProduct.imagesUrl.filter"))
  end.

Definition updateProduct : Action unit :=
  draft ← gets templateProduct;
  mode ← gets modeType;
  data ← (fun s => (productData draft, s));
  try_catch
    (if String.eqb mode "add" then
       res ← admin POST [Lit "product"] (Data data);
       alert [Lit "已新增產品！"];;
       getProducts;;
       modify closeModal
     else
       res ← admin PUT [Lit "product/"; Sub (get draft "id")] (Data data);
       alert [Sub (body_message res)];;
       getProducts;;
       modify closeModal)
    (fun error =>
       if String.eqb mode "add"
       then alert [Lit "新增失敗："; Sub (getErrorMessage error); Lit "!"]
       else alert [Lit "更新失敗："; Sub (getErrorMessage error); Lit "!"]).

Definition deleteProduct (id : val) : Action unit :=
  try_catch
    (res ← admin DELETE [Lit "product/"; Sub id] NoPayload;
     alert [Sub (body_message res)];;
     getProducts;;
     modify closeModal)
    (fun error => alert [Lit "刪除失敗："; Sub (getErrorMessage error); Lit "!"]).

End App.

Arguments getProducts _ _ : simpl never.

(** ** The image slots of the draft *)

(** The primary slot, and the secondary slots when [imagesUrl] is an array
    or empty. *)
Definition primary (s : State) : val := get (templateProduct s) "imageUrl".

Definition secondaries (s : State) : option (list val) :=
  array_or_empty (get (templateProduct s) "imagesUrl").

(** The image invariant: the secondary slots form a list, and the draft
    holds at most four images, counting the primary image when that slot is
    filled and every secondary slot. *)
Definition image_invariant (s : State) : Prop :=
  exists subs,
    secondaries s = Some subs /\
    (if truthy (primary s) then 1 else 0) + Z.of_nat (length subs) <= 4.

(** [addImage(url)]: the URL is typed into the input
    ([onChange={(e) => setTempImageInput(e.target.value)}]) and the button
    is clicked. *)
Definition addImage (u : string) (s : State) : option State :=
  handleAddImage (with_tempImageInput u s).

Fixpoint addImages (urls : list string) (s : State) : option State :=
  match urls with
  | [] => Some s
  | u :: rest => s' ← addImage u s; addImages rest s'
  end.

(** ** The view *)

(** The parts of the rendered tree of [App] that depend on the state. *)

Definition isPreview (s : State) : bool := String.eqb (modeType s) "preview".

Definition isFormMode (s : State) : bool :=
  String.eqb (modeType s) "add" || String.eqb (modeType s) "edit".

(** The colour class of the modal's header. *)
Definition modalHeaderClass (s : State) : string :=
  if isPreview s then "bg-success"
  else if isFormMode s then "bg-primary"
  else "bg-danger".

Definition modalTitle (s : State) : string :=
  if isPreview s then "商品詳情"
  else if String.eqb (modeType s) "delete" then "刪除商品"
  else if String.eqb (modeType s) "add" then "新增商品"
  else "編輯商品".

(** What the modal's body shows: the product card, the form, or the
    question whether to delete the product. *)
Inductive ModalBody : Type :=
  | PreviewCard
  | ProductForm
  | DeleteConfirmation.

Definition modalBody (s : State) : ModalBody :=
  if isPreview s then PreviewCard
  else if isFormMode s then ProductForm
  else DeleteConfirmation.

(** The buttons of the modal's footer, in order: 取消 calls [closeModal],
    儲存 calls [updateProduct], 刪除 calls [deleteProduct] with the draft's
    id. *)
Inductive FooterButton : Type :=
  | CancelButton
  | SaveButton
  | DeleteButton.

Definition modalFooter (s : State) : list FooterButton :=
  if negb (isPreview s) then
    [CancelButton]
    ++ (if isFormMode s then [SaveButton] else [])
    ++ (if negb (isPreview s) && negb (isFormMode s) then [DeleteButton] else [])
  else [].

(** The URL input and the 新增連結 button are disabled when
    [allImages.length >= 4]. *)
Definition addDisabled (shown : list val) : bool :=
  4 <=? Z.of_nat (length shown).

(** 渲染剩餘的 Placeholder: the numbers [imgNum] of the placeholder images,
    one for each index of [Array.from({ length: 4 - allImages.length })]; a
    negative length makes an empty array. *)
Definition placeholders (shown : list val) : list Z :=
  map (fun index => Z.of_nat (length shown) + Z.of_nat index + 1)
    (seq 0 (Z.to_nat (4 - Z.of_nat (length shown)))).

(** ** Edits of the draft in the form *)

(** What the user can do to the draft while the form is open: add an image
    URL, remove the image at an index, change a form control. *)
Inductive DraftAction : Type :=
  | AddImage (u : string)
  | RemoveImage (index : Z)
  | Change (e : Target).

Definition perform (a : DraftAction) (s : State) : option State :=
  match a with
  | AddImage u => addImage u s
  | RemoveImage index => handleRemoveImage index s
  | Change e => Some (handleModalInputChange e s)
  end.

Fixpoint performAll (actions : list DraftAction) (s : State) : option State :=
  match actions with
  | [] => Some s
  | a :: rest => s' ← perform a s; performAll rest s'
  end.

(** The form has no control named after an image property. *)
Definition keeps_images (a : DraftAction) : Prop :=
  match a with
  | Change e => name e <> "imageUrl" /\ name e <> "imagesUrl"
  | _ => True
  end.

(** ** Requests, as the backend sees them *)

Definition header (token : val) : option val :=
  if truthy token then Some token else None.

Definition signin_request (account : Obj) : Request :=
  {| client := authApi; method := POST; url := [Lit "admin/signin"];
     payload := Account account; authorization := None |}.

Definition check_request (token : val) : Request :=
  {| client := authApi; method := POST; url := [Lit "api/user/check"];
     payload := NoPayload; authorization := Some token |}.

Definition products_request (token : val) : Request :=
  {| client := adminApi; method := GET; url := [Lit "products"];
     payload := NoPayload; authorization := header token |}.

Definition status_request (token id : val) (data : Obj) : Request :=
  {| client := adminApi; method := PUT; url := [Lit "product/"; Sub id];
     payload := Data data; authorization := header token |}.

Definition logout_request (token : val) : Request :=
  {| client := authApi; method := POST; url := [Lit "logout"];
     payload := NoPayload; authorization := Some token |}.

Definition save_request (token : val) (mode : string) (draft data : Obj) : Request :=
  if String.eqb mode "add"
  then {| client := adminApi; method := POST; url := [Lit "product"];
          payload := Data data; authorization := header token |}
  else {| client := adminApi; method := PUT;
          url := [Lit "product/"; Sub (get draft "id")];
          payload := Data data; authorization := header token |}.

Definition delete_request (token id : val) : Request :=
  {| client := adminApi; method := DELETE; url := [Lit "product/"; Sub id];
     payload := NoPayload; authorization := header token |}.

(** ** Sample data *)

Definition number_event (field input : string) : Target :=
  {| name := field; value := input; checked := false; type := "number" |}.

Definition sample_product : Obj :=
  list_to_map
    [ ("id", JStr "p1"); ("title", JStr "Tea"); ("price", JStr "12");
      ("origin_price", JNum (num_of_Z 20)); ("is_enabled", JBool true);
      ("imageUrl", JStr "a.png");
      ("imagesUrl", JArr [JStr "b.png"; JStr ""; JStr "c.png"]) ].

Definition other_product : Obj :=
  list_to_map [ ("id", JStr "p2"); ("title", JStr "Cup"); ("is_enabled", zero) ].

Definition listed_product : Obj :=
  list_to_map [ ("id", JStr "p1"); ("title", JStr "Tea"); ("is_enabled", one) ].

Definition editing (draft : Obj) : State := with_templateProduct draft initialState.

Definition signed_in : State :=
  with_products [listed_product; other_product]
    (with_credential (Some (JStr "tok", JNum (num_of_Z 1700000000000))) initialState).

Definition sample_body : Body :=
  {| body_message := JStr "ok"; token := JStr "tok";
     expired := JNum (num_of_Z 1700000000000); success := JBool true;
     body_products := [listed_product; other_product] |}.

Definition network_error : Error :=
  {| response := None; message := JStr "Network Error" |}.

Definition refused : Error :=
  {| response := Some (Some {[ "message" := JStr "denied" ]});
     message := JStr "Request failed with status code 401" |}.


(** A backend that accepts everything. *)
Definition serve_ok : list Request -> Request -> Reply :=
  fun _ _ => Fulfilled sample_body.

(** A backend that rejects everything. *)
Definition serve_down : list Request -> Request -> Reply :=
  fun _ _ => Rejected network_error.

(** A backend that answers the token check with [success: false]. *)
Definition serve_invalid_token : list Request -> Request -> Reply :=
  fun _ _ =>
    Fulfilled {| body_message := JUndefined; token := JUndefined;
                 expired := JUndefined; success := JBool false;
                 body_products := [] |}.

(** V8's wording. *)
Definition v8_text (failure : Failure) : string :=
  match failure with
  | ReadOfUndefined property =>
      "Cannot read properties of undefined (reading '" +:+ property +:+ "')"
  | ReadOfNull property =>
      "Cannot read properties of null (reading '" +:+ property +:+ "')"
  | NotAFunction callee => callee +:+ " is not a function"
  end.

Definition checkbox_event (field : string) (on : bool) : Target :=
  {| name := field; value := "on"; checked := on; type := "checkbox" |}.

Definition text_event (field input : string) : Target :=
  {| name := field; value := input; checked := false; type := "text" |}.

(** A product as a backend may list it: without [imagesUrl], with
    [imagesUrl: null], and with a string under [imagesUrl]. *)
Definition bare_product : Obj :=
  list_to_map [ ("id", JStr "p3"); ("title", JStr "Pot"); ("price", JNum (num_of_Z 5)) ].

Definition null_images_product : Obj :=
  list_to_map [ ("id", JStr "p4"); ("title", JStr "Jar"); ("imagesUrl", JNull) ].

Definition text_images_product : Obj :=
  list_to_map [ ("id", JStr "p5"); ("title", JStr "Mug"); ("imagesUrl", JStr "a.png") ].

(** A backend that refuses every request with a message in the body. *)
Definition serve_refusing : list Request -> Request -> Reply :=
  fun _ _ => Rejected refused.

(** ** Properties *)

(** *** Lemmas on values and objects *)

Lemma get_insert_eq (o : Obj) (k : string) (v : val) : get (<[k:=v]> o) k = v.
Proof. unfold get. by rewrite lookup_insert_eq. Qed.

Lemma get_insert_ne (o : Obj) (k k' : string) (v : val) :
  k <> k' -> get (<[k:=v]> o) k' = get o k'.
Proof. intros Hne. unfold get. by rewrite lookup_insert_ne. Qed.

Lemma strict_eq_empty_string (u : val) :
  strict_eq u (JStr "") = true <-> u = JStr "".
Proof.
  destruct u as [| | b | n | x | l]; simpl; try (split; [discriminate | congruence]).
  split.
  - intros H. apply String.eqb_eq in H. by subst.
  - intros H. injection H as ->. reflexivity.
Qed.

Lemma truthy_string (x : string) : truthy (JStr x) = true <-> x <> "".
Proof.
  simpl. rewrite negb_true_iff. split.
  - intros H ->. discriminate.
  - intros H. by apply String.eqb_neq.
Qed.



Lemma requests_emit (t : list Event) (ev : Event) :
  requests (t ++ [ev]) =
  requests t ++ match ev with Sent r => [r] | _ => [] end.
Proof. unfold requests. rewrite omap_app. by destruct ev. Qed.

(** *** The error formatter *)



(** *** The modal *)

(** C9: whatever the draft was, [openModal(mode, product)] makes the draft
    the given product merged over the blank template (every property of
    the product, and the template's value for each property the product
    lacks), sets the mode and shows the modal; without a product the draft
    is the blank template itself, as when the add form is opened.
    [closeModal] hides the modal and leaves the draft as it is. *)
Theorem openModal_replaces_draft (mode : string) (product : option Obj) (s : State) :
  templateProduct (openModal mode product s) =
    default initialProduct product ∪ initialProduct /\
  (forall p k, product = Some p ->
     templateProduct (openModal mode product s) !! k =
       match p !! k with Some v => Some v | None => initialProduct !! k end) /\
  (product = None -> templateProduct (openModal mode product s) = initialProduct) /\
  modeType (openModal mode product s) = mode /\
  modalShown (openModal mode product s) = true /\
  templateProduct (closeModal s) = templateProduct s /\
  modalShown (closeModal s) = false.
Proof.
  repeat split.
  - intros p k ->. simpl. rewrite lookup_union. by destruct (p !! k), (initialProduct !! k).
  - intros ->. simpl. apply (idemp_L (∪)).
Qed.

Lemma openModal_replaces_draft_witness :
  templateProduct (openModal "edit" (Some other_product) (editing sample_product))
    !! "title" = Some (JStr "Cup") /\
  templateProduct (openModal "edit" (Some other_product) (editing sample_product))
    !! "imageUrl" = Some (JStr "") /\
  templateProduct (openModal "add" None (editing sample_product)) = initialProduct.
Proof.
  pose proof (openModal_replaces_draft "edit" (Some other_product)
                (editing sample_product)) as (_ & Hk & _).
  pose proof (openModal_replaces_draft "add" None
                (editing sample_product)) as (_ & _ & Hnone & _).
  split; [| split].
  - rewrite (Hk other_product "title" eq_refl). reflexivity.
  - rewrite (Hk other_product "imageUrl" eq_refl). reflexivity.
  - apply Hnone. reflexivity.
Defined.

(** *** The form input normalizer *)

(** C4, as the code has it: a change on a numeric field stores the empty
    string for an empty input, the number [0] (not the string) when the
    input parses to a number below zero, and the raw input string in every
    other case; no other property of the draft changes. *)
Theorem handleModalInputChange_number (e : Target) (s : State) :
  type e = "number" ->
  get (templateProduct (handleModalInputChange e s)) (name e) =
    (if String.eqb (value e) "" then JStr ""
     else if lt (string_to_number (value e)) (S754_zero false)
          then JNum (S754_zero false)
          else JStr (value e)) /\
  (forall k, k <> name e ->
     templateProduct (handleModalInputChange e s) !! k = templateProduct s !! k).
Proof.
  intros Hty. unfold handleModalInputChange. rewrite Hty. simpl.
  split.
  - by rewrite get_insert_eq.
  - intros k Hk. by rewrite lookup_insert_ne.
Qed.

Lemma handleModalInputChange_number_witness :
  type (number_event "price" "-5") = "number" /\
  get (templateProduct (handleModalInputChange (number_event "price" "-5")
                          (editing sample_product))) "price"
    = JNum (S754_zero false).
Proof.
  split; [reflexivity |].
  apply (proj1 (handleModalInputChange_number (number_event "price" "-5")
                  (editing sample_product) eq_refl)).
Defined.

Example handleModalInputChange_empty :
  get (templateProduct (handleModalInputChange (number_event "price" "")
                          (editing sample_product))) "price" = JStr "".
Proof. vm_compute. reflexivity. Qed.

Example handleModalInputChange_twelve :
  get (templateProduct (handleModalInputChange (number_event "price" "12")
                          (editing sample_product))) "price" = JStr "12".
Proof. vm_compute. reflexivity. Qed.

Example handleModalInputChange_negative_zero :
  get (templateProduct (handleModalInputChange (number_event "price" "-0")
                          (editing sample_product))) "price" = JStr "-0".
Proof. vm_compute. reflexivity. Qed.

(** C4 as stated fails: the input ["-5"] parses to a negative number, and
    what is stored is the number [0], which is not the string ["0"]. *)
Lemma handleModalInputChange_negative_stores_number :
  lt (to_number (JStr "-5")) (S754_zero false) = true /\
  get (templateProduct (handleModalInputChange (number_event "price" "-5")
                          (editing sample_product))) "price"
    <> JStr "0".
Proof.
  split.
  - vm_compute. reflexivity.
  - vm_compute. discriminate.
Qed.

(** *** The image slots *)

Lemma splice_one {A : Type} (start : Z) (l : list A) :
  0 <= start -> splice start 1 l = delete (Z.to_nat start) l.
Proof.
  intros Hstart. unfold splice. rewrite delete_take_drop.
  destruct (Z.ltb_spec start 0) as [? | _]; [lia |].
  destruct (Z.le_gt_cases (Z.of_nat (length l)) start) as [Hout | Hin].
  - rewrite Z.min_r by lia.
    rewrite !take_ge, !drop_ge by lia. reflexivity.
  - rewrite Z.min_l by lia.
    replace (Z.to_nat (start + Z.min (Z.max 1 0) (Z.of_nat (length l) - start)))
      with (S (Z.to_nat start)) by lia.
    reflexivity.
Qed.

Lemma secondaries_with_imagesUrl (s : State) (draft : Obj) (l : list val) :
  secondaries (with_templateProduct (<["imagesUrl" := JArr l]> draft) s) = Some l.
Proof. unfold secondaries. simpl. by rewrite get_insert_eq. Qed.

(** C2: on a draft whose secondary slots are the list [subs],
    [removeImage(0)] makes [subs[0]] the primary image and the rest of
    [subs], in order, the secondary slots; with no secondary image the
    primary becomes the empty string. [removeImage(k)] for [k >= 1] leaves
    the primary alone and deletes position [k-1] of [subs]: the slots before
    it stay where they are and every later one moves one place to the
    left. *)
Theorem handleRemoveImage_closes_gap (index : Z) (s : State) (subs : list val) :
  secondaries s = Some subs ->
  exists s',
    handleRemoveImage index s = Some s' /\
    (index = 0 ->
       primary s' = match subs with x :: _ => x | [] => JStr "" end /\
       secondaries s' = Some (tail subs)) /\
    (1 <= index ->
       primary s' = primary s /\
       secondaries s' = Some (delete (Z.to_nat (index - 1)) subs) /\
       forall (subs' : list val) (i : nat),
         secondaries s' = Some subs' ->
         subs' !! i = if (Z.of_nat i <? index - 1) then subs !! i else subs !! S i).
Proof.
  intros Hsubs. unfold handleRemoveImage. unfold secondaries in Hsubs.
  rewrite Hsubs. simpl.
  destruct (Z.eqb_spec index 0) as [-> | Hne]; eexists; split; try reflexivity.
  - split; [| intros; lia]. intros _.
    rewrite secondaries_with_imagesUrl. split; [| reflexivity].
    unfold primary. simpl.
    rewrite get_insert_ne by discriminate. by rewrite get_insert_eq.
  - split; [intros; contradiction |]. intros Hk.
    rewrite secondaries_with_imagesUrl, splice_one by lia.
    split; [| split; [reflexivity |]].
    + unfold primary. simpl. by rewrite get_insert_ne by discriminate.
    + intros subs' i [= <-].
      destruct (Z.ltb_spec (Z.of_nat i) (index - 1)).
      * apply list_lookup_delete_lt. lia.
      * apply list_lookup_delete_ge. lia.
Qed.

Lemma handleRemoveImage_closes_gap_witness :
  secondaries (editing sample_product)
    = Some [JStr "b.png"; JStr ""; JStr "c.png"] /\
  exists s',
    handleRemoveImage 2 (editing sample_product) = Some s' /\
    primary s' = JStr "a.png" /\
    secondaries s' = Some [JStr "b.png"; JStr "c.png"].
Proof.
  split; [reflexivity |].
  destruct (handleRemoveImage_closes_gap 2 (editing sample_product)
              [JStr "b.png"; JStr ""; JStr "c.png"] eq_refl)
    as (s' & Hrun & _ & Hk).
  exists s'. split; [exact Hrun |].
  destruct Hk as (Hmain & Hsubs & _); [lia |].
  split; [rewrite Hmain; reflexivity | exact Hsubs].
Defined.

Example handleRemoveImage_promotes :
  exists s',
    handleRemoveImage 0 (editing sample_product) = Some s' /\
    primary s' = JStr "b.png" /\
    secondaries s' = Some [JStr ""; JStr "c.png"].
Proof. eexists. split; [reflexivity |]. split; reflexivity. Qed.

Example handleRemoveImage_last_image :
  exists s',
    handleRemoveImage 0 (editing (<["imageUrl" := JStr "a.png"]> initialProduct))
      = Some s' /\
    primary s' = JStr "" /\ secondaries s' = Some [].
Proof. eexists. split; [reflexivity |]. split; reflexivity. Qed.

Lemma image_invariant_draft (s s' : State) :
  templateProduct s' = templateProduct s -> image_invariant s -> image_invariant s'.
Proof.
  unfold image_invariant, secondaries, primary. intros ->. done.
Qed.

Lemma handleAddImage_empty_input (s : State) :
  tempImageInput s = "" -> handleAddImage s = Some s.
Proof. intros H. unfold handleAddImage. by rewrite H. Qed.

(** One [addImage] with a non-empty URL, from a state with the invariant. *)
Lemma addImage_step (u : string) (s : State) (subs : list val) :
  u <> "" -> secondaries s = Some subs -> totalImages (primary s) subs <= 4 ->
  exists s',
    addImage u s = Some s' /\ image_invariant s' /\
    (totalImages (primary s) subs = 4 ->
       s' = emit (Alert [Lit "最多只能上傳 4 張圖片"]) (with_tempImageInput u s)) /\
    (totalImages (primary s) subs < 4 -> truthy (primary s) = false ->
       primary s' = JStr u /\ secondaries s' = Some subs) /\
    (totalImages (primary s) subs < 4 -> truthy (primary s) = true ->
       primary s' = primary s /\ secondaries s' = Some (subs ++ [JStr u])).
Proof.
  intros Hu Hsubs Hle.
  unfold addImage, handleAddImage. simpl.
  apply String.eqb_neq in Hu as Hu'. rewrite Hu'.
  unfold secondaries in Hsubs. rewrite Hsubs. simpl.
  fold (primary s).
  destruct (Z.leb_spec 4 (totalImages (primary s) subs)) as [Hfull | Hroom].
  - eexists. split; [reflexivity |]. split.
    + exists subs. split; [exact Hsubs | exact Hle].
    + split; [reflexivity |]. split; intros; lia.
  - destruct (truthy (primary s)) eqn:Hmain; simpl;
      (eexists; split; [reflexivity |]).
    + split; [| split; [intros; lia | split; [intros; discriminate |]]].
      * exists (subs ++ [JStr u]). split.
        -- apply secondaries_with_imagesUrl.
        -- unfold primary, totalImages in *. simpl.
           rewrite get_insert_ne by discriminate. rewrite Hmain in *.
           rewrite length_app. simpl. lia.
      * intros _ _. split; [| apply secondaries_with_imagesUrl].
        unfold primary. simpl. by rewrite get_insert_ne by discriminate.
    + split; [| split; [intros; lia | split; [| intros; discriminate]]].
      * exists subs. split.
        -- unfold secondaries. simpl. by rewrite get_insert_ne by discriminate.
        -- unfold totalImages in *. rewrite Hmain in Hroom.
           match goal with |- context [truthy ?x] => destruct (truthy x) end; lia.
      * intros _ _. split.
        -- unfold primary. simpl. apply get_insert_eq.
        -- unfold secondaries. simpl. by rewrite get_insert_ne by discriminate.
Qed.

Lemma addImage_invariant (u : string) (s : State) :
  image_invariant s -> exists s', addImage u s = Some s' /\ image_invariant s'.
Proof.
  intros Hinv. destruct (String.eqb_spec u "") as [-> | Hu].
  - exists (with_tempImageInput "" s). split.
    + by apply handleAddImage_empty_input.
    + by apply (image_invariant_draft s).
  - destruct Hinv as (subs & Hsubs & Hle).
    destruct (addImage_step u s subs Hu Hsubs Hle) as (s' & Hrun & Hinv' & _).
    by exists s'.
Qed.

Lemma addImages_invariant (urls : list string) (s : State) :
  image_invariant s -> exists s', addImages urls s = Some s' /\ image_invariant s'.
Proof.
  revert s. induction urls as [| u rest IH]; intros s Hinv; simpl.
  - by exists s.
  - destruct (addImage_invariant u s Hinv) as (s1 & Hrun & Hinv1).
    rewrite Hrun. simpl. by apply IH.
Qed.

Lemma allImages_bound (s : State) (subs shown : list val) :
  secondaries s = Some subs ->
  (if truthy (primary s) then 1 else 0) + Z.of_nat (length subs) <= 4 ->
  allImages s = Some shown -> (length shown <= 4)%nat.
Proof.
  unfold secondaries, allImages, primary. intros -> Hle.
  destruct (truthy _); simpl; intros [= <-]; simpl; lia.
Qed.

(** C1, as the code has it: start from a state with the image invariant and
    add any sequence of URLs, then one more, non-empty [u]. Every state on
    the way holds at most four images, counting the primary image when its
    slot is filled and every secondary slot, and displays at most four. In
    the state [s] reached before [u] is added: with four images already, the
    call leaves the draft and the pending input as they are and raises the
    alert; otherwise [u] becomes the primary image when there is none, the
    secondary slots staying as they are, and it is appended to the end of
    the secondary slots only when the primary slot is filled. With an empty
    pending input the call changes nothing at all. *)
Theorem addImage_sequence (s0 : State) (urls : list string) (u : string) :
  image_invariant s0 -> Forall (fun x => x <> "") urls -> u <> "" ->
  exists s subs s' subs',
    addImages urls s0 = Some s /\
    secondaries s = Some subs /\
    (if truthy (primary s) then 1 else 0) + Z.of_nat (length subs) <= 4 /\
    addImage u s = Some s' /\
    secondaries s' = Some subs' /\
    (if truthy (primary s') then 1 else 0) + Z.of_nat (length subs') <= 4 /\
    (forall shown, allImages s' = Some shown -> (length shown <= 4)%nat) /\
    ((if truthy (primary s) then 1 else 0) + Z.of_nat (length subs) = 4 ->
       s' = emit (Alert [Lit "最多只能上傳 4 張圖片"]) (with_tempImageInput u s) /\
       templateProduct s' = templateProduct s /\ tempImageInput s' = u) /\
    ((if truthy (primary s) then 1 else 0) + Z.of_nat (length subs) < 4 ->
     truthy (primary s) = false ->
       primary s' = JStr u /\ secondaries s' = Some subs) /\
    ((if truthy (primary s) then 1 else 0) + Z.of_nat (length subs) < 4 ->
     truthy (primary s) = true ->
       primary s' = primary s /\ secondaries s' = Some (subs ++ [JStr u])) /\
    handleAddImage (with_tempImageInput "" s) = Some (with_tempImageInput "" s).
Proof.
  intros Hinv0 _ Hu.
  destruct (addImages_invariant urls s0 Hinv0) as (s & Hrun & Hinv).
  destruct Hinv as (subs & Hsubs & Hle).
  destruct (addImage_step u s subs Hu Hsubs Hle)
    as (s' & Hadd & Hinv' & Hfull & Hfirst & Hnext).
  destruct Hinv' as (subs' & Hsubs' & Hle').
  exists s, subs, s', subs'.
  split; [exact Hrun |]. split; [exact Hsubs |]. split; [exact Hle |].
  split; [exact Hadd |]. split; [exact Hsubs' |]. split; [exact Hle' |].
  split; [intros shown; by apply (allImages_bound s' subs') |].
  split; [| split; [exact Hfirst | split; [exact Hnext |]]].
  - intros H4. rewrite (Hfull H4). done.
  - by apply handleAddImage_empty_input.
Qed.

Lemma image_invariant_blank : image_invariant (editing initialProduct).
Proof. exists []. split; [reflexivity | vm_compute; discriminate]. Qed.

Lemma addImage_sequence_witness :
  image_invariant (editing initialProduct) /\
  exists s subs s' subs',
    addImages ["a.png"; "b.png"; "c.png"; "d.png"] (editing initialProduct) = Some s /\
    secondaries s = Some subs /\
    (if truthy (primary s) then 1 else 0) + Z.of_nat (length subs) <= 4 /\
    addImage "e.png" s = Some s' /\
    secondaries s' = Some subs' /\
    (if truthy (primary s') then 1 else 0) + Z.of_nat (length subs') <= 4 /\
    (forall shown, allImages s' = Some shown -> (length shown <= 4)%nat).
Proof.
  split; [exact image_invariant_blank |].
  destruct (addImage_sequence (editing initialProduct)
              ["a.png"; "b.png"; "c.png"; "d.png"] "e.png")
    as (s & subs & s' & subs' & Hrun & Hsubs & Hle & Hadd & Hsubs' & Hle' & Hshown & _).
  - exact image_invariant_blank.
  - repeat constructor; discriminate.
  - discriminate.
  - exists s, subs, s', subs'. repeat split; assumption.
Defined.

(** C1 as stated fails: on a draft that holds four images the call is no
    no-op, it raises the alert. *)
Lemma addImage_full_raises_alert :
  secondaries (editing sample_product)
    = Some [JStr "b.png"; JStr ""; JStr "c.png"] /\
  truthy (primary (editing sample_product)) = true /\
  exists s',
    addImage "e.png" (editing sample_product) = Some s' /\
    trace s' = [Alert [Lit "最多只能上傳 4 張圖片"]] /\
    s' <> with_tempImageInput "e.png" (editing sample_product).
Proof.
  split; [reflexivity |]. split; [reflexivity |].
  eexists. split; [reflexivity |]. split; [reflexivity |].
  intros Heq. apply (f_equal trace) in Heq. discriminate Heq.
Qed.

Example addImages_fills_primary_first :
  (s ← addImages ["a.png"; "b.png"; "c.png"; "d.png"; "e.png"] (editing initialProduct);
   Some (primary s, secondaries s, tempImageInput s, trace s)) =
  Some (JStr "a.png", Some [JStr "b.png"; JStr "c.png"; JStr "d.png"], "e.png",
        [Alert [Lit "最多只能上傳 4 張圖片"]]).
Proof. vm_compute. reflexivity. Qed.

(** *** Handlers with effects *)

Lemma filter_nonempty_spec (l : list val) (u : val) :
  In u (List.filter (fun x => negb (strict_eq x (JStr ""))) l) <->
  In u l /\ u <> JStr "".
Proof.
  rewrite filter_In, negb_true_iff. split; intros [Hin Hne]; split; try done.
  - intros Heq. apply strict_eq_empty_string in Heq. congruence.
  - destruct (strict_eq u (JStr "")) eqn:Heq; [| done].
    apply strict_eq_empty_string in Heq. contradiction.
Qed.

Section Effects.

Variable serve : list Request -> Request -> Reply.
Variable typeErrorText : Failure -> string.

(** C3: every record that [updateProduct] builds from the draft has
    [is_enabled] equal to the number [1] when the draft's value is truthy
    and to the number [0] otherwise, has the numbers that [Number(...)]
    makes of the draft's [origin_price] and [price], has under [imagesUrl]
    the draft's entries other than the empty string, and has the draft's
    value for every other property; it is the payload of the request that
    [updateProduct] sends first. A record is built whenever the draft's
    [imagesUrl] is an array. *)
Theorem productData_coerces (s : State) :
  (forall data,
     productData typeErrorText (templateProduct s) = Normal data ->
     exists l kept,
       get (templateProduct s) "imagesUrl" = JArr l /\
       get data "is_enabled" =
         (if truthy (get (templateProduct s) "is_enabled") then one else zero) /\
       get data "origin_price" =
         JNum (to_number (get (templateProduct s) "origin_price")) /\
       get data "price" = JNum (to_number (get (templateProduct s) "price")) /\
       get data "imagesUrl" = JArr kept /\
       ~ In (JStr "") kept /\
       (forall u, In u kept <-> In u l /\ u <> JStr "") /\
       (forall k, ~ In k ["origin_price"; "price"; "is_enabled"; "imagesUrl"] ->
          data !! k = templateProduct s !! k) /\
       exists r rest,
         trace (updateProduct serve typeErrorText s).2 = trace s ++ Sent r :: rest /\
         client r = adminApi /\
         method r = (if String.eqb (modeType s) "add" then POST else PUT) /\
         payload r = Data data) /\
  (forall l,
     get (templateProduct s) "imagesUrl" = JArr l ->
     exists data, productData typeErrorText (templateProduct s) = Normal data).
Proof.
  split; [| intros l Harr; unfold productData; rewrite Harr; by eexists].
  intros data Hbuilt.
  destruct (get (templateProduct s) "imagesUrl") as [| | b | n | x | l] eqn:Harr;
    try (unfold productData in Hbuilt; rewrite Harr in Hbuilt; discriminate).
  exists l, (List.filter (fun x => negb (strict_eq x (JStr ""))) l).
  assert (Hdata : data =
            <["imagesUrl" := JArr (List.filter (fun x => negb (strict_eq x (JStr ""))) l)]>
              (<["is_enabled" :=
                   if truthy (get (templateProduct s) "is_enabled") then one else zero]>
                 (<["price" := JNum (to_number (get (templateProduct s) "price"))]>
                    (<["origin_price" :=
                         JNum (to_number (get (templateProduct s) "origin_price"))]>
                       (templateProduct s))))).
  { unfold productData in Hbuilt. rewrite Harr in Hbuilt. congruence. }
  split; [reflexivity |].
  split; [rewrite Hdata, get_insert_ne by discriminate; apply get_insert_eq |].
  split; [rewrite Hdata, !get_insert_ne by discriminate; apply get_insert_eq |].
  split; [rewrite Hdata, !get_insert_ne by discriminate; apply get_insert_eq |].
  split; [rewrite Hdata; apply get_insert_eq |].
  split; [rewrite filter_nonempty_spec; tauto |].
  split; [apply filter_nonempty_spec |].
  split.
  { intros k Hk. simpl in Hk. rewrite Hdata.
    rewrite !lookup_insert_ne; [done | | | |]; intros <-; tauto. }
  unfold updateProduct. unfold_action. simpl.
  rewrite Hbuilt. simpl.
  unfold admin, send, getProducts, admin, send. unfold_action. simpl.
  destruct (String.eqb (modeType s) "add"); simpl.
  - match goal with |- context [serve ?h ?r] => destruct (serve h r) eqn:Hreply end;
      simpl.
    + match goal with |- context [serve ?h ?r] => destruct (serve h r) end; simpl;
        rewrite <- !app_assoc; simpl; eexists _, _; (split; [reflexivity | done]).
    + rewrite <- !app_assoc. simpl. eexists _, _. split; [reflexivity | done].
  - match goal with |- context [serve ?h ?r] => destruct (serve h r) eqn:Hreply end;
      simpl.
    + match goal with |- context [serve ?h ?r] => destruct (serve h r) end; simpl;
        rewrite <- !app_assoc; simpl; eexists _, _; (split; [reflexivity | done]).
    + rewrite <- !app_assoc. simpl. eexists _, _. split; [reflexivity | done].
Qed.

Lemma getToken_with_credential (tok exp : val) (s : State) :
  getToken (with_credential (Some (tok, exp)) s) = tok.
Proof. reflexivity. Qed.

(** What [getProducts] leaves behind: the request, and either the new list
    or a line on the console. It never raises. *)
Lemma getProducts_run (s : State) :
  getProducts serve s =
    (Normal tt,
     match serve (requests (trace s)) (products_request (getToken s)) with
     | Fulfilled data =>
         with_products (body_products data)
           (emit (Sent (products_request (getToken s))) s)
     | Rejected error =>
         emit (ConsoleError [JStr "API 錯誤:"; getErrorMessage error])
           (emit (Sent (products_request (getToken s))) s)
     end).
Proof.
  unfold getProducts, admin, send. unfold_action.
  fold (header (getToken s)). fold (products_request (getToken s)).
  by destruct (serve _ _).
Qed.

Lemma find_none_iff (id : val) (l : list Obj) :
  List.find (fun product => strict_eq (get product "id") id) l = None <->
  forall product, In product l -> strict_eq (get product "id") id = false.
Proof.
  split.
  - intros H product Hin. by apply (find_none _ _ H).
  - intros H. induction l as [| x l IH]; [done |]. simpl.
    rewrite (H x) by (by left). apply IH. intros product Hin. apply H. by right.
Qed.

(** C10: when no product of the list has the given id, the lookup finds
    nothing, reading [is_enabled] of the missing product raises inside the
    [try] block, and the handler ends normally: all it has done is log the
    formatted [TypeError]. No request went out and the list is the same. *)
Theorem updateProductStatus_unknown_id (id : val) (s : State) :
  (forall product, In product (products s) ->
     strict_eq (get product "id") id = false) ->
  List.find (fun product => strict_eq (get product "id") id) (products s) = None /\
  updateProductStatus serve typeErrorText id s =
    (Normal tt,
     emit (ConsoleError [JStr "API 錯誤:";
                         getErrorMessage (TypeError typeErrorText (ReadOfUndefined "is_enabled"))]) s) /\
  products (updateProductStatus serve typeErrorText id s).2 = products s /\
  requests (trace (updateProductStatus serve typeErrorText id s).2) =
    requests (trace s).
Proof.
  intros Habsent. apply find_none_iff in Habsent as Hfind.
  assert (Hrun : updateProductStatus serve typeErrorText id s =
            (Normal tt,
             emit (ConsoleError [JStr "API 錯誤:";
                                 getErrorMessage (TypeError typeErrorText (ReadOfUndefined "is_enabled"))]) s)).
  { unfold updateProductStatus. unfold_action. simpl. by rewrite Hfind. }
  split; [exact Hfind |]. split; [exact Hrun |].
  rewrite Hrun. simpl. split; [reflexivity |].
  rewrite requests_emit. apply app_nil_r.
Qed.

Lemma toggled_flips :
  toggled one = zero /\ toggled zero = one.
Proof. split; reflexivity. Qed.

(** C7: let [target] be the product the lookup finds for the id, and let
    the request carry [target] with [is_enabled] flipped ([1] becomes [0],
    [0] becomes [1]). When the request succeeds, the new list is the old
    one, position by position: a product with another id is kept as it is,
    and a product with this id gets the flipped value as its [is_enabled]
    and keeps every other property; the target itself is one of these. When
    the request fails, the list is the old one and the only trace of the
    failure is a line on the console. *)
Theorem updateProductStatus_flips_only_target (id : val) (s : State) (target : Obj) :
  List.find (fun product => strict_eq (get product "id") id) (products s) = Some target ->
  In target (products s) /\ strict_eq (get target "id") id = true /\
  (get target "is_enabled" = one -> toggled (get target "is_enabled") = zero) /\
  (get target "is_enabled" = zero -> toggled (get target "is_enabled") = one) /\
  (forall res,
     serve (requests (trace s))
       (status_request (getToken s) id
          (<["is_enabled" := toggled (get target "is_enabled")]> target))
       = Fulfilled res ->
     exists s',
       updateProductStatus serve typeErrorText id s = (Normal tt, s') /\
       length (products s') = length (products s) /\
       (forall i item, products s !! i = Some item ->
          strict_eq (get item "id") id = false -> products s' !! i = Some item) /\
       (forall i item, products s !! i = Some item ->
          strict_eq (get item "id") id = true ->
          exists item',
            products s' !! i = Some item' /\
            get item' "is_enabled" = toggled (get target "is_enabled") /\
            forall k, k <> "is_enabled" -> item' !! k = item !! k) /\
       trace s' =
         trace s ++
         [Sent (status_request (getToken s) id
                  (<["is_enabled" := toggled (get target "is_enabled")]> target));
          Alert [Sub (body_message res)]]) /\
  (forall error,
     serve (requests (trace s))
       (status_request (getToken s) id
          (<["is_enabled" := toggled (get target "is_enabled")]> target))
       = Rejected error ->
     exists s',
       updateProductStatus serve typeErrorText id s = (Normal tt, s') /\
       products s' = products s /\
       trace s' =
         trace s ++
         [Sent (status_request (getToken s) id
                  (<["is_enabled" := toggled (get target "is_enabled")]> target));
          ConsoleError [JStr "API 錯誤:"; getErrorMessage error]]).
Proof.
  intros Hfind.
  split; [by apply (find_some _ _ Hfind) |].
  split; [by apply (find_some _ _ Hfind) |].
  split; [by intros -> |]. split; [by intros -> |].
  split.
  - intros res Hreply. eexists. split.
    + unfold updateProductStatus, admin, send. unfold_action. simpl.
      rewrite Hfind. simpl.
      fold (header (getToken s)).
      fold (status_request (getToken s) id
              (<["is_enabled" := toggled (get target "is_enabled")]> target)).
      rewrite Hreply. simpl. reflexivity.
    + simpl. split; [by rewrite length_map |].
      split; [| split].
      * intros i item Hi Hid. rewrite list_lookup_fmap, Hi. simpl. by rewrite Hid.
      * intros i item Hi Hid. eexists. split.
        -- rewrite list_lookup_fmap, Hi. simpl. rewrite Hid. reflexivity.
        -- rewrite !get_insert_eq. split; [reflexivity |].
           intros k Hk. by rewrite lookup_insert_ne.
      * by rewrite <- app_assoc.
  - intros error Hreply. eexists. split.
    + unfold updateProductStatus, admin, send. unfold_action. simpl.
      rewrite Hfind. simpl.
      fold (header (getToken s)).
      fold (status_request (getToken s) id
              (<["is_enabled" := toggled (get target "is_enabled")]> target)).
      rewrite Hreply. simpl. reflexivity.
    + simpl. split; [reflexivity |]. by rewrite <- app_assoc.
Qed.

(** C6: when the sign-in request succeeds, [handleLogin] stores the
    returned token and expiry, then requests the product list with that
    token (taking the list when it arrives, logging to the console when it
    does not), then sets [isAuth] to [true], and ends normally. When the
    sign-in request fails, it raises the alert with the formatted error and
    re-raises that same error to its caller; [isAuth], the stored
    credential and the product list are what they were. *)
Theorem handleLogin_outcomes (account : Obj) (s : State) :
  (forall res,
     serve (requests (trace s)) (signin_request account) = Fulfilled res ->
     exists s',
       handleLogin serve account s = (Normal tt, s') /\
       credential s' = Some (token res, expired res) /\
       isAuth s' = true /\ isLoading s' = false /\
       match serve (requests (trace s) ++ [signin_request account])
               (products_request (token res)) with
       | Fulfilled data =>
           products s' = body_products data /\
           trace s' =
             trace s ++
             [Sent (signin_request account); Sent (products_request (token res));
              SetIsAuth true]
       | Rejected error =>
           products s' = products s /\
           trace s' =
             trace s ++
             [Sent (signin_request account); Sent (products_request (token res));
              ConsoleError [JStr "API 錯誤:"; getErrorMessage error];
              SetIsAuth true]
       end) /\
  (forall error,
     serve (requests (trace s)) (signin_request account) = Rejected error ->
     exists s',
       handleLogin serve account s = (Thrown error, s') /\
       isAuth s' = isAuth s /\ credential s' = credential s /\
       products s' = products s /\ isLoading s' = false /\
       trace s' =
         trace s ++
         [Sent (signin_request account);
          Alert [Sub (getErrorMessage error); Lit "!"]]).
Proof.
  split.
  - intros res Hreply. eexists. split.
    + unfold handleLogin, auth_post, send. unfold_action. simpl.
      fold (signin_request account). rewrite Hreply. simpl.
      rewrite getProducts_run. simpl. reflexivity.
    + simpl. rewrite requests_emit, getToken_with_credential.
      destruct (serve _ (products_request (token res))); simpl;
        (repeat split; [done .. |]); by rewrite <- !app_assoc.
  - intros error Hreply. eexists. split.
    + unfold handleLogin, auth_post, send. unfold_action. simpl.
      fold (signin_request account). rewrite Hreply. simpl. reflexivity.
    + simpl. repeat split. by rewrite <- !app_assoc.
Qed.

(** C5, as the code has it. Without a stored token [checkAdmin] sets
    [isAuth] to [false] and sends nothing. With a token, a successful
    verification is followed by the request for the product list and then
    by [isAuth] set to [true]. A rejected verification request raises the
    alert with the formatted error and sets [isAuth] to [false]; an answer
    with a falsy [success] sets [isAuth] to [false] without any alert. In no
    case is the stored credential touched. *)
Theorem checkAdmin_outcomes (s : State) :
  (credential s = None \/ truthy (getToken s) = false ->
   exists s',
     checkAdmin serve s = (Normal tt, s') /\
     isAuth s' = false /\ isCheckingAuth s' = false /\
     credential s' = credential s /\
     trace s' = trace s ++ [SetIsAuth false]) /\
  (truthy (getToken s) = true ->
   forall res,
     serve (requests (trace s)) (check_request (getToken s)) = Fulfilled res ->
     truthy (success res) = true ->
     exists s',
       checkAdmin serve s = (Normal tt, s') /\
       isAuth s' = true /\ isCheckingAuth s' = false /\
       credential s' = credential s /\
       match serve (requests (trace s) ++ [check_request (getToken s)])
               (products_request (getToken s)) with
       | Fulfilled data =>
           products s' = body_products data /\
           trace s' =
             trace s ++
             [Sent (check_request (getToken s));
              Sent (products_request (getToken s)); SetIsAuth true]
       | Rejected error =>
           products s' = products s /\
           trace s' =
             trace s ++
             [Sent (check_request (getToken s));
              Sent (products_request (getToken s));
              ConsoleError [JStr "API 錯誤:"; getErrorMessage error];
              SetIsAuth true]
       end) /\
  (truthy (getToken s) = true ->
   forall error,
     serve (requests (trace s)) (check_request (getToken s)) = Rejected error ->
     exists s',
       checkAdmin serve s = (Normal tt, s') /\
       isAuth s' = false /\ isCheckingAuth s' = false /\
       credential s' = credential s /\ products s' = products s /\
       trace s' =
         trace s ++
         [Sent (check_request (getToken s));
          Alert [Lit "請重新登入！Token 驗證失敗："; Sub (getErrorMessage error)];
          SetIsAuth false]) /\
  (truthy (getToken s) = true ->
   forall res,
     serve (requests (trace s)) (check_request (getToken s)) = Fulfilled res ->
     truthy (success res) = false ->
     exists s',
       checkAdmin serve s = (Normal tt, s') /\
       isAuth s' = false /\ isCheckingAuth s' = false /\
       credential s' = credential s /\ products s' = products s /\
       trace s' = trace s ++ [Sent (check_request (getToken s)); SetIsAuth false]).
Proof.
  split; [| split; [| split]].
  - intros Hnone.
    assert (Hfalsy : truthy (getToken s) = false).
    { destruct Hnone as [Hnone | Hfalsy]; [| exact Hfalsy].
      unfold getToken. by rewrite Hnone. }
    eexists. split.
    + unfold checkAdmin. unfold_action. simpl.
      unfold getToken in *. simpl. rewrite Hfalsy. simpl. reflexivity.
    + simpl. done.
  - intros Htoken res Hreply Hsuccess. eexists. split.
    + unfold checkAdmin, auth_post, send. unfold_action. simpl.
      change (getToken (with_isCheckingAuth true (with_isLoading true s)))
        with (getToken s).
      rewrite Htoken. simpl. fold (check_request (getToken s)).
      rewrite Hreply. simpl. rewrite Hsuccess.
      rewrite getProducts_run. simpl. reflexivity.
    + simpl. rewrite requests_emit.
      change (getToken _) with (getToken s).
      destruct (serve _ (products_request (getToken s))); simpl;
        (repeat split; [done .. |]); by rewrite <- !app_assoc.
  - intros Htoken error Hreply. eexists. split.
    + unfold checkAdmin, auth_post, send. unfold_action. simpl.
      change (getToken (with_isCheckingAuth true (with_isLoading true s)))
        with (getToken s).
      rewrite Htoken. simpl. fold (check_request (getToken s)).
      rewrite Hreply. simpl. reflexivity.
    + simpl. repeat split. by rewrite <- !app_assoc.
  - intros Htoken res Hreply Hsuccess. eexists. split.
    + unfold checkAdmin, auth_post, send. unfold_action. simpl.
      change (getToken (with_isCheckingAuth true (with_isLoading true s)))
        with (getToken s).
      rewrite Htoken. simpl. fold (check_request (getToken s)).
      rewrite Hreply. simpl. rewrite Hsuccess. reflexivity.
    + simpl. repeat split. by rewrite <- !app_assoc.
Qed.

End Effects.

Lemma updateProductStatus_unknown_id_witness :
  (forall product, In product (products signed_in) ->
     strict_eq (get product "id") (JStr "p9") = false) /\
  updateProductStatus serve_ok v8_text (JStr "p9") signed_in =
    (Normal tt,
     emit (ConsoleError
             [JStr "API 錯誤:";
              JStr "Cannot read properties of undefined (reading 'is_enabled')"])
       signed_in).
Proof.
  assert (Habsent : forall product, In product (products signed_in) ->
            strict_eq (get product "id") (JStr "p9") = false).
  { intros product [<- | [<- | []]]; reflexivity. }
  split; [exact Habsent |].
  exact (proj1 (proj2 (updateProductStatus_unknown_id serve_ok v8_text
                         (JStr "p9") signed_in Habsent))).
Defined.

Lemma updateProductStatus_flips_only_target_witness :
  List.find (fun product => strict_eq (get product "id") (JStr "p1"))
    (products signed_in) = Some listed_product /\
  exists s',
    updateProductStatus serve_ok v8_text (JStr "p1") signed_in = (Normal tt, s') /\
    products s' !! 0%nat = Some (<["is_enabled" := zero]> listed_product) /\
    products s' !! 1%nat = Some other_product.
Proof.
  split; [reflexivity |].
  destruct (updateProductStatus_flips_only_target serve_ok v8_text
              (JStr "p1") signed_in listed_product eq_refl)
    as (_ & _ & _ & _ & Hok & _).
  destruct (Hok sample_body eq_refl) as (s' & Hrun & _ & Hother & Hsame & _).
  exists s'. split; [exact Hrun |]. split.
  - destruct (Hsame 0%nat listed_product eq_refl eq_refl)
      as (item' & Hitem & Hflag & Hrest).
    rewrite Hitem. f_equal. apply map_eq. intros k.
    destruct (decide (k = "is_enabled")) as [-> | Hk].
    + rewrite lookup_insert_eq. unfold get in Hflag.
      destruct (item' !! "is_enabled") as [v |] eqn:Hv; simpl in Hflag.
      * by rewrite Hflag.
      * discriminate Hflag.
    + rewrite lookup_insert_ne by done. by apply Hrest.
  - apply (Hother 1%nat other_product eq_refl eq_refl).
Defined.

Lemma productData_coerces_witness :
  exists data kept,
    productData v8_text (templateProduct (editing sample_product)) = Normal data /\
    get data "is_enabled" = one /\
    get data "origin_price" = JNum (num_of_Z 20) /\
    get data "price" = JNum (num_of_Z 12) /\
    get data "imagesUrl" = JArr kept /\
    ~ In (JStr "") kept /\ In (JStr "c.png") kept.
Proof.
  destruct (proj2 (productData_coerces serve_ok v8_text (editing sample_product))
              [JStr "b.png"; JStr ""; JStr "c.png"] eq_refl)
    as (data & Hrun).
  destruct (proj1 (productData_coerces serve_ok v8_text (editing sample_product))
              data Hrun)
    as (l & kept & Harr & Hflag & Horigin & Hprice & Himages & Hnone & Hkept & _).
  exists data, kept.
  split; [exact Hrun |]. split; [exact Hflag |].
  split; [rewrite Horigin; reflexivity |].
  split; [rewrite Hprice; vm_compute; reflexivity |].
  split; [exact Himages |]. split; [exact Hnone |].
  apply Hkept. split; [| discriminate].
  injection Harr as <-. right; right; left; reflexivity.
Defined.

Example productData_sample :
  match productData v8_text sample_product with
  | Normal data =>
      Some (get data "origin_price", get data "price", get data "is_enabled",
            get data "imagesUrl", get data "title")
  | Thrown _ => None
  end =
  Some (JNum (num_of_Z 20), JNum (num_of_Z 12), one,
        JArr [JStr "b.png"; JStr "c.png"], JStr "Tea").
Proof. vm_compute. reflexivity. Qed.

(** Without an array under [imagesUrl] no record is built: the access to
    [filter] or its call raises before the [try] block is entered, and
    [updateProduct] passes the error on without a request. *)
Remark updateProduct_without_array (serve : list Request -> Request -> Reply)
    (text : Failure -> string) (s : State) :
  (forall l, get (templateProduct s) "imagesUrl" <> JArr l) ->
  updateProduct serve text s =
    (Thrown (TypeError text
               match get (templateProduct s) "imagesUrl" with
               | JUndefined => ReadOfUndefined "filter"
               | JNull => ReadOfNull "filter"
               | _ => NotAFunction "templateProduct.imagesUrl.filter"
               end), s).
Proof.
  intros Hne. unfold updateProduct. unfold_action. simpl.
  unfold productData.
  destruct (get (templateProduct s) "imagesUrl") as [| | b | n | x | l]; try done.
  by destruct (Hne l).
Qed.

Lemma handleLogin_outcomes_witness :
  (exists s',
     handleLogin serve_ok ∅ initialState = (Normal tt, s') /\
     credential s' = Some (JStr "tok", JNum (num_of_Z 1700000000000)) /\
     isAuth s' = true /\
     products s' = [listed_product; other_product]) /\
  (exists s',
     handleLogin serve_down ∅ initialState = (Thrown network_error, s') /\
     isAuth s' = false /\
     trace s' = [Sent (signin_request ∅); Alert [Sub (JStr "Network Error"); Lit "!"]]).
Proof.
  split.
  - destruct (proj1 (handleLogin_outcomes serve_ok ∅ initialState) sample_body eq_refl)
      as (s' & Hrun & Hcred & Hauth & _ & Hlist & _).
    exists s'. repeat split; assumption.
  - destruct (proj2 (handleLogin_outcomes serve_down ∅ initialState) network_error eq_refl)
      as (s' & Hrun & Hauth & _ & _ & _ & Htrace).
    exists s'. repeat split; assumption.
Defined.

Lemma checkAdmin_outcomes_witness :
  (exists s',
     checkAdmin serve_ok initialState = (Normal tt, s') /\
     isAuth s' = false /\ trace s' = [SetIsAuth false]) /\
  (exists s',
     checkAdmin serve_ok signed_in = (Normal tt, s') /\
     isAuth s' = true /\
     trace s' = [Sent (check_request (JStr "tok"));
                 Sent (products_request (JStr "tok")); SetIsAuth true]) /\
  (exists s',
     checkAdmin serve_down signed_in = (Normal tt, s') /\
     isAuth s' = false /\
     credential s' = credential signed_in /\
     trace s' = [Sent (check_request (JStr "tok"));
                 Alert [Lit "請重新登入！Token 驗證失敗："; Sub (JStr "Network Error")];
                 SetIsAuth false]) /\
  (exists s',
     checkAdmin serve_invalid_token signed_in = (Normal tt, s') /\
     isAuth s' = false /\
     trace s' = [Sent (check_request (JStr "tok")); SetIsAuth false]).
Proof.
  split; [| split; [| split]].
  - destruct (proj1 (checkAdmin_outcomes serve_ok initialState) (or_introl eq_refl))
      as (s' & Hrun & Hauth & _ & _ & Htrace).
    exists s'. repeat split; assumption.
  - destruct (proj1 (proj2 (checkAdmin_outcomes serve_ok signed_in))
                eq_refl sample_body eq_refl eq_refl)
      as (s' & Hrun & Hauth & _ & _ & _ & Htrace).
    exists s'. repeat split; assumption.
  - destruct (proj1 (proj2 (proj2 (checkAdmin_outcomes serve_down signed_in)))
                eq_refl network_error eq_refl)
      as (s' & Hrun & Hauth & _ & Hcred & _ & Htrace).
    exists s'. repeat split; assumption.
  - destruct (proj2 (proj2 (proj2 (checkAdmin_outcomes serve_invalid_token signed_in)))
                eq_refl _ eq_refl eq_refl)
      as (s' & Hrun & Hauth & _ & _ & _ & Htrace).
    exists s'. repeat split; assumption.
Defined.

(** C5 as stated fails: a token is stored, the verification is answered
    with [success: false], and [checkAdmin] sets [isAuth] to [false] without
    any alert. *)
Lemma checkAdmin_invalid_token_no_alert :
  truthy (getToken signed_in) = true /\
  (exists res,
     serve_invalid_token (requests (trace signed_in))
       (check_request (getToken signed_in)) = Fulfilled res /\
     truthy (success res) = false) /\
  isAuth (checkAdmin serve_invalid_token signed_in).2 = false /\
  forall msg, ~ In (Alert msg) (trace (checkAdmin serve_invalid_token signed_in).2).
Proof.
  split; [reflexivity |].
  split; [eexists; split; reflexivity |].
  split; [reflexivity |].
  intros msg.
  change (trace (checkAdmin serve_invalid_token signed_in).2)
    with [Sent (check_request (JStr "tok")); SetIsAuth false].
  intros [H | [H | []]]; discriminate H.
Qed.

(** *** More on the image slots *)

Lemma splice_length {A : Type} (start deleteCount : Z) (l : list A) :
  (length (splice start deleteCount l) <= length l)%nat.
Proof.
  unfold splice. rewrite length_app, length_take, length_drop. lia.
Qed.

Lemma delete_last {A : Type} (l : list A) (x : A) :
  delete (length l) (l ++ [x]) = l.
Proof. induction l as [| y l IH]; simpl; [done | by rewrite IH]. Qed.

(** The state after [handleRemoveImage], written out. *)
Lemma handleRemoveImage_run (index : Z) (s : State) (subs : list val) :
  secondaries s = Some subs ->
  handleRemoveImage index s =
    Some (with_templateProduct
            (if index =? 0
             then <["imagesUrl" := JArr (tail subs)]>
                    (<["imageUrl" := match subs with x :: _ => x | [] => JStr "" end]>
                       (templateProduct s))
             else <["imagesUrl" := JArr (splice (index - 1) 1 subs)]> (templateProduct s))
            s).
Proof.
  unfold secondaries, handleRemoveImage. intros ->. simpl.
  by destruct (index =? 0).
Qed.

Lemma handleRemoveImage_slots (index : Z) (s : State) (subs : list val) :
  secondaries s = Some subs ->
  exists s',
    handleRemoveImage index s = Some s' /\
    primary s' =
      (if index =? 0 then match subs with x :: _ => x | [] => JStr "" end
       else primary s) /\
    secondaries s' =
      Some (if index =? 0 then tail subs else splice (index - 1) 1 subs) /\
    (forall k, k <> "imageUrl" -> k <> "imagesUrl" ->
       templateProduct s' !! k = templateProduct s !! k) /\
    tempImageInput s' = tempImageInput s /\ trace s' = trace s.
Proof.
  intros Hsubs. eexists. split; [by apply handleRemoveImage_run |].
  unfold primary, secondaries. simpl.
  destruct (index =? 0).
  - rewrite get_insert_eq, get_insert_ne, get_insert_eq by discriminate.
    repeat split. intros k H1 H2. by rewrite !lookup_insert_ne.
  - rewrite get_insert_eq, get_insert_ne by discriminate.
    repeat split. intros k H1 H2. by rewrite lookup_insert_ne.
Qed.

Lemma handleRemoveImage_invariant (index : Z) (s : State) :
  image_invariant s ->
  exists s', handleRemoveImage index s = Some s' /\ image_invariant s'.
Proof.
  intros (subs & Hsubs & Hle).
  destruct (handleRemoveImage_slots index s subs Hsubs)
    as (s' & Hrun & Hmain & Hsubs' & _).
  exists s'. split; [exact Hrun |]. eexists. split; [exact Hsubs' |].
  rewrite Hmain. unfold totalImages in *.
  destruct (index =? 0).
  - destruct subs as [| x rest]; simpl in *; [lia |].
    destruct (truthy x), (truthy (primary s)); lia.
  - pose proof (splice_length (index - 1) 1 subs).
    destruct (truthy (primary s)); lia.
Qed.

Lemma handleModalInputChange_invariant (e : Target) (s : State) :
  name e <> "imageUrl" -> name e <> "imagesUrl" ->
  image_invariant s -> image_invariant (handleModalInputChange e s).
Proof.
  intros H1 H2 (subs & Hsubs & Hle). exists subs.
  unfold secondaries, primary, handleModalInputChange in *. simpl.
  by rewrite !get_insert_ne.
Qed.

(** X1: removing an image, at whatever integer index, never adds one. On a
    draft whose secondary slots form a list the call is defined, the list it
    leaves is no longer than before, the number of images does not grow, and
    only the two image properties of the draft can change. *)
Theorem handleRemoveImage_never_adds (index : Z) (s : State) (subs : list val) :
  secondaries s = Some subs ->
  exists s' subs',
    handleRemoveImage index s = Some s' /\
    secondaries s' = Some subs' /\
    (length subs' <= length subs)%nat /\
    totalImages (primary s') subs' <= totalImages (primary s) subs /\
    (forall k, k <> "imageUrl" -> k <> "imagesUrl" ->
       templateProduct s' !! k = templateProduct s !! k).
Proof.
  intros Hsubs.
  destruct (handleRemoveImage_slots index s subs Hsubs)
    as (s' & Hrun & Hmain & Hsubs' & Hframe & _).
  exists s'. eexists. split; [exact Hrun |]. split; [exact Hsubs' |].
  rewrite Hmain. unfold totalImages.
  destruct (index =? 0).
  - split; [| split; [| exact Hframe]].
    + destruct subs; simpl; lia.
    + destruct subs as [| x rest]; simpl; [destruct (truthy (primary s)); lia |].
      destruct (truthy x), (truthy (primary s)); lia.
  - pose proof (splice_length (index - 1) 1 subs).
    split; [lia | split; [| exact Hframe]].
    destruct (truthy (primary s)); lia.
Qed.

Lemma handleRemoveImage_never_adds_witness :
  secondaries (editing sample_product)
    = Some [JStr "b.png"; JStr ""; JStr "c.png"] /\
  exists s' subs',
    handleRemoveImage (-1) (editing sample_product) = Some s' /\
    secondaries s' = Some subs' /\
    (length subs' <= 3)%nat /\
    totalImages (primary s') subs' <= 4.
Proof.
  split; [reflexivity |].
  destruct (handleRemoveImage_never_adds (-1) (editing sample_product)
              [JStr "b.png"; JStr ""; JStr "c.png"] eq_refl)
    as (s' & subs' & Hrun & Hsubs & Hlen & Htotal & _).
  exists s', subs'. repeat split; assumption.
Defined.

(** X2: adding a URL to a draft that has a primary image and room for one
    more, and then removing the image at the index where it was put (one
    past the old secondary slots), gives back the primary image and the
    secondary slots there were. *)
Theorem addImage_then_remove_restores (u : string) (s : State) (subs : list val) :
  u <> "" -> secondaries s = Some subs ->
  truthy (primary s) = true -> totalImages (primary s) subs < 4 ->
  exists s1 s2,
    addImage u s = Some s1 /\
    secondaries s1 = Some (subs ++ [JStr u]) /\
    handleRemoveImage (Z.of_nat (length subs) + 1) s1 = Some s2 /\
    primary s2 = primary s /\ secondaries s2 = Some subs.
Proof.
  intros Hu Hsubs Hmain Hroom.
  destruct (addImage_step u s subs Hu Hsubs ltac:(lia))
    as (s1 & Hadd & _ & _ & _ & Hnext).
  destruct (Hnext Hroom Hmain) as (Hmain1 & Hsubs1).
  destruct (handleRemoveImage_slots (Z.of_nat (length subs) + 1) s1 _ Hsubs1)
    as (s2 & Hrun & Hmain2 & Hsubs2 & _).
  exists s1, s2. repeat split; try assumption.
  - rewrite Hmain2, <- Hmain1.
    by destruct (Z.eqb_spec (Z.of_nat (length subs) + 1) 0); [lia |].
  - rewrite Hsubs2.
    destruct (Z.eqb_spec (Z.of_nat (length subs) + 1) 0); [lia |].
    rewrite splice_one by lia. f_equal.
    replace (Z.to_nat (Z.of_nat (length subs) + 1 - 1)) with (length subs) by lia.
    apply delete_last.
Qed.

Lemma addImage_then_remove_restores_witness :
  secondaries (editing (<["imagesUrl" := JArr [JStr "b.png"]]> sample_product))
    = Some [JStr "b.png"] /\
  exists s1 s2,
    addImage "d.png" (editing (<["imagesUrl" := JArr [JStr "b.png"]]> sample_product))
      = Some s1 /\
    secondaries s1 = Some [JStr "b.png"; JStr "d.png"] /\
    handleRemoveImage 2 s1 = Some s2 /\
    primary s2 = JStr "a.png" /\ secondaries s2 = Some [JStr "b.png"].
Proof.
  split; [reflexivity |].
  destruct (addImage_then_remove_restores "d.png"
              (editing (<["imagesUrl" := JArr [JStr "b.png"]]> sample_product))
              [JStr "b.png"])
    as (s1 & s2 & Hadd & Hsubs1 & Hrun & Hmain & Hsubs2).
  - discriminate.
  - reflexivity.
  - reflexivity.
  - vm_compute. reflexivity.
  - exists s1, s2. split; [exact Hadd |]. split; [exact Hsubs1 |].
    split; [exact Hrun |]. split; [rewrite Hmain; reflexivity | exact Hsubs2].
Defined.

Lemma allImages_slots (s : State) (subs : list val) :
  secondaries s = Some subs ->
  allImages s = Some (if truthy (primary s) then primary s :: subs else []).
Proof.
  unfold secondaries, allImages, primary. intros ->.
  by destruct (truthy _).
Qed.

Lemma allImages_nonempty (s : State) (shown : list val) :
  allImages s = Some shown -> shown <> [] ->
  exists subs,
    secondaries s = Some subs /\ truthy (primary s) = true /\
    shown = primary s :: subs.
Proof.
  unfold allImages, secondaries, primary. intros Hshown Hne.
  destruct (truthy _); [| congruence].
  destruct (array_or_empty _) as [subs |]; [| discriminate].
  exists subs. simpl in Hshown. split; [done |]. split; [done | congruence].
Qed.

(** X3: the index a thumbnail's delete button passes is the index of that
    image in the displayed sequence: on a draft whose images are all truthy,
    removing index [i] of the displayed sequence leaves exactly that
    sequence without its entry [i]. *)
Theorem handleRemoveImage_deletes_shown (i : nat) (s : State) (shown : list val) :
  allImages s = Some shown ->
  Forall (fun v => truthy v = true) shown ->
  (i < length shown)%nat ->
  exists s',
    handleRemoveImage (Z.of_nat i) s = Some s' /\
    allImages s' = Some (delete i shown).
Proof.
  intros Hshown Hall Hi.
  destruct (allImages_nonempty s shown Hshown) as (subs & Hsubs & Hmain & ->).
  { intros ->. simpl in Hi. lia. }
  destruct (handleRemoveImage_slots (Z.of_nat i) s subs Hsubs)
    as (s' & Hrun & Hmain' & Hsubs' & _).
  exists s'. split; [exact Hrun |].
  rewrite (allImages_slots s' _ Hsubs'), Hmain'.
  destruct (Z.eqb_spec (Z.of_nat i) 0) as [Hzero | Hpos].
  - replace i with 0%nat by lia.
    destruct subs as [| x rest]; simpl; [reflexivity |].
    apply Forall_cons in Hall as [_ Hrest].
    apply Forall_cons in Hrest as [Hx _]. by rewrite Hx.
  - destruct i as [| j]; [done |].
    rewrite Hmain. simpl delete. rewrite splice_one by lia. do 3 f_equal. lia.
Qed.

Lemma handleRemoveImage_deletes_shown_witness :
  allImages (editing (<["imagesUrl" := JArr [JStr "b.png"; JStr "c.png"]]> sample_product))
    = Some [JStr "a.png"; JStr "b.png"; JStr "c.png"] /\
  exists s',
    handleRemoveImage 1
      (editing (<["imagesUrl" := JArr [JStr "b.png"; JStr "c.png"]]> sample_product))
      = Some s' /\
    allImages s' = Some [JStr "a.png"; JStr "c.png"].
Proof.
  split; [reflexivity |].
  apply (handleRemoveImage_deletes_shown 1
           (editing (<["imagesUrl" := JArr [JStr "b.png"; JStr "c.png"]]> sample_product))
           [JStr "a.png"; JStr "b.png"; JStr "c.png"]).
  - reflexivity.
  - repeat constructor.
  - simpl. lia.
Defined.

(** X4: when the first secondary slot holds a falsy entry (an empty string,
    say), removing the primary image promotes that entry: nothing is
    displayed any more, while the remaining secondary entries stay in the
    draft. *)
Theorem handleRemoveImage_promotes_falsy (s : State) (x : val) (rest : list val) :
  secondaries s = Some (x :: rest) -> truthy x = false ->
  exists s',
    handleRemoveImage 0 s = Some s' /\
    primary s' = x /\ secondaries s' = Some rest /\
    allImages s' = Some [].
Proof.
  intros Hsubs Hx.
  destruct (handleRemoveImage_slots 0 s _ Hsubs)
    as (s' & Hrun & Hmain' & Hsubs' & _).
  simpl in Hmain', Hsubs'.
  exists s'. split; [exact Hrun |]. split; [exact Hmain' |].
  split; [exact Hsubs' |].
  by rewrite (allImages_slots s' _ Hsubs'), Hmain', Hx.
Qed.

Lemma handleRemoveImage_promotes_falsy_witness :
  secondaries (editing (<["imagesUrl" := JArr [JStr ""; JStr "c.png"]]> sample_product))
    = Some [JStr ""; JStr "c.png"] /\
  exists s',
    handleRemoveImage 0
      (editing (<["imagesUrl" := JArr [JStr ""; JStr "c.png"]]> sample_product))
      = Some s' /\
    primary s' = JStr "" /\ secondaries s' = Some [JStr "c.png"] /\
    allImages s' = Some [].
Proof.
  split; [reflexivity |].
  apply (handleRemoveImage_promotes_falsy
           (editing (<["imagesUrl" := JArr [JStr ""; JStr "c.png"]]> sample_product))
           (JStr "") [JStr "c.png"]); reflexivity.
Defined.

Lemma placeholder_numbers (n m k : nat) :
  map (fun index => Z.of_nat n + Z.of_nat index + 1) (seq k m) =
  map Z.of_nat (seq (S n + k) m).
Proof.
  revert k. induction m as [| m IH]; intros k; simpl; [done |].
  f_equal; [lia |]. rewrite IH. do 2 f_equal. lia.
Qed.

(** X5: on a draft with the image invariant the thumbnails and the
    placeholders always make four slots: at most four images are displayed,
    and the placeholders are numbered from the first free slot up to 4. *)
Theorem allImages_fills_four_slots (s : State) :
  image_invariant s ->
  exists shown,
    allImages s = Some shown /\
    (length shown <= 4)%nat /\
    (length shown + length (placeholders shown) = 4)%nat /\
    placeholders shown =
      map Z.of_nat (seq (S (length shown)) (4 - length shown)).
Proof.
  intros (subs & Hsubs & Hle).
  eexists. split; [by apply allImages_slots |].
  unfold totalImages in Hle.
  assert (Hlen : (length (if truthy (primary s) then primary s :: subs else []) <= 4)%nat).
  { destruct (truthy (primary s)); simpl; lia. }
  set (shown := if truthy (primary s) then primary s :: subs else []) in *.
  clearbody shown. unfold placeholders.
  split; [exact Hlen |].
  rewrite length_map, length_seq.
  split; [lia |].
  replace (Z.to_nat (4 - Z.of_nat (length shown))) with (4 - length shown)%nat by lia.
  replace (S (length shown)) with (S (length shown) + 0)%nat by lia.
  apply placeholder_numbers.
Qed.

Lemma allImages_fills_four_slots_witness :
  image_invariant (editing sample_product) /\
  exists shown,
    allImages (editing sample_product) = Some shown /\
    (length shown <= 4)%nat /\
    (length shown + length (placeholders shown) = 4)%nat /\
    placeholders shown = map Z.of_nat (seq (S (length shown)) (4 - length shown)).
Proof.
  assert (Hinv : image_invariant (editing sample_product)).
  { eexists. split; [reflexivity | vm_compute; discriminate]. }
  split; [exact Hinv |].
  exact (allImages_fills_four_slots (editing sample_product) Hinv).
Defined.

Lemma addImage_refused (u : string) (s : State) (subs : list val) :
  u <> "" -> secondaries s = Some subs -> 4 <= totalImages (primary s) subs ->
  addImage u s =
    Some (emit (Alert [Lit "最多只能上傳 4 張圖片"]) (with_tempImageInput u s)).
Proof.
  intros Hu Hsubs Hfull. unfold addImage, handleAddImage. simpl.
  apply String.eqb_neq in Hu. rewrite Hu.
  unfold secondaries in Hsubs. rewrite Hsubs. simpl. fold (primary s).
  by destruct (Z.leb_spec 4 (totalImages (primary s) subs)); [| lia].
Qed.

(** X6: the add button and the handler agree when the draft has a primary
    image: a disabled button (four images displayed) means the handler
    would refuse with its alert, and an enabled one means the URL is
    appended to the secondary slots. Without a primary image the button is
    never disabled; with four or more secondary entries the click is then
    refused all the same. *)
Theorem addDisabled_agrees_with_handler (u : string) (s : State) (shown subs : list val) :
  allImages s = Some shown -> secondaries s = Some subs -> u <> "" ->
  (addDisabled shown = true ->
     addImage u s =
       Some (emit (Alert [Lit "最多只能上傳 4 張圖片"]) (with_tempImageInput u s))) /\
  (truthy (primary s) = true -> addDisabled shown = false ->
     exists s',
       addImage u s = Some s' /\
       primary s' = primary s /\ secondaries s' = Some (subs ++ [JStr u]) /\
       tempImageInput s' = "") /\
  (truthy (primary s) = false ->
     addDisabled shown = false /\
     ((4 <= length subs)%nat ->
        addImage u s =
          Some (emit (Alert [Lit "最多只能上傳 4 張圖片"]) (with_tempImageInput u s)))).
Proof.
  intros Hshown Hsubs Hu.
  rewrite (allImages_slots s subs Hsubs) in Hshown. injection Hshown as <-.
  unfold addDisabled.
  split; [| split].
  - intros Hdis. apply (addImage_refused u s subs Hu Hsubs).
    apply Z.leb_le in Hdis. unfold totalImages.
    destruct (truthy (primary s)); simpl in Hdis; lia.
  - intros Hmain Hen. rewrite Hmain in Hen. apply Z.leb_gt in Hen.
    assert (Hroom : totalImages (primary s) subs < 4).
    { unfold totalImages. rewrite Hmain. simpl in Hen. lia. }
    destruct (addImage_step u s subs Hu Hsubs ltac:(lia))
      as (s' & Hadd & _ & _ & _ & Hnext).
    exists s'. split; [exact Hadd |].
    destruct (Hnext Hroom Hmain) as (Hmain' & Hsubs').
    split; [exact Hmain' |]. split; [exact Hsubs' |].
    unfold addImage, handleAddImage in Hadd. simpl in Hadd.
    apply String.eqb_neq in Hu. rewrite Hu in Hadd.
    unfold secondaries in Hsubs. rewrite Hsubs in Hadd. simpl in Hadd.
    fold (primary s) in Hadd.
    destruct (Z.leb_spec 4 (totalImages (primary s) subs)); [lia |].
    by injection Hadd as <-.
  - intros Hmain. rewrite Hmain. split; [reflexivity |].
    intros Hmany. apply (addImage_refused u s subs Hu Hsubs).
    unfold totalImages. rewrite Hmain. lia.
Qed.

Lemma addDisabled_agrees_with_handler_witness :
  allImages (editing sample_product)
    = Some [JStr "a.png"; JStr "b.png"; JStr ""; JStr "c.png"] /\
  secondaries (editing sample_product)
    = Some [JStr "b.png"; JStr ""; JStr "c.png"] /\
  addDisabled [JStr "a.png"; JStr "b.png"; JStr ""; JStr "c.png"] = true /\
  addImage "e.png" (editing sample_product) =
    Some (emit (Alert [Lit "最多只能上傳 4 張圖片"])
            (with_tempImageInput "e.png" (editing sample_product))).
Proof.
  split; [reflexivity |]. split; [reflexivity |]. split; [reflexivity |].
  apply (proj1 (addDisabled_agrees_with_handler "e.png" (editing sample_product)
                  [JStr "a.png"; JStr "b.png"; JStr ""; JStr "c.png"]
                  [JStr "b.png"; JStr ""; JStr "c.png"]
                  eq_refl eq_refl ltac:(discriminate))).
  reflexivity.
Defined.

(** X7: a second click on the add button adds nothing: when there is room
    for the image, [handleAddImage] run on the state it has just produced
    leaves that state as it is, for the pending input was cleared. *)
Theorem handleAddImage_second_click (s s' : State) (subs : list val) :
  secondaries s = Some subs -> totalImages (primary s) subs < 4 ->
  handleAddImage s = Some s' ->
  handleAddImage s' = Some s' /\
  (tempImageInput s <> "" -> tempImageInput s' = "" /\
     templateProduct s' <> templateProduct s).
Proof.
  intros Hsubs Hroom Hrun.
  unfold handleAddImage in Hrun.
  destruct (String.eqb_spec (tempImageInput s) "") as [Hempty | Hinput].
  - injection Hrun as <-. split; [by apply handleAddImage_empty_input | done].
  - unfold secondaries in Hsubs. rewrite Hsubs in Hrun. simpl in Hrun.
    fold (primary s) in Hrun.
    destruct (Z.leb_spec 4 (totalImages (primary s) subs)); [lia |].
    injection Hrun as <-.
    split; [by apply handleAddImage_empty_input |].
    intros _. split; [reflexivity |]. simpl.
    destruct (truthy (primary s)) eqn:Hmain; simpl; intros Heq.
    + assert (Hget : get (<["imagesUrl" := JArr (subs ++ [JStr (tempImageInput s)])]>
                             (templateProduct s)) "imagesUrl"
                     = get (templateProduct s) "imagesUrl") by (by rewrite Heq).
      rewrite get_insert_eq in Hget.
      rewrite <- Hget in Hsubs. simpl in Hsubs. injection Hsubs as Hsubs.
      apply (f_equal length) in Hsubs. rewrite length_app in Hsubs. simpl in Hsubs. lia.
    + assert (Hget : get (<["imageUrl" := JStr (tempImageInput s)]> (templateProduct s))
                       "imageUrl" = primary s) by (by rewrite Heq).
      rewrite get_insert_eq in Hget. rewrite <- Hget in Hmain.
      apply truthy_string in Hinput. congruence.
Qed.

Lemma handleAddImage_second_click_witness :
  exists s',
    handleAddImage (with_tempImageInput "a.png" (editing initialProduct)) = Some s' /\
    handleAddImage s' = Some s' /\ tempImageInput s' = "".
Proof.
  eexists. split; [reflexivity |].
  destruct (handleAddImage_second_click
              (with_tempImageInput "a.png" (editing initialProduct)) _ []
              eq_refl ltac:(vm_compute; reflexivity) eq_refl)
    as (Hagain & Hcleared).
  split; [exact Hagain |]. apply Hcleared. discriminate.
Defined.

Lemma performAll_invariant (actions : list DraftAction) (s : State) :
  image_invariant s -> Forall keeps_images actions ->
  exists s', performAll actions s = Some s' /\ image_invariant s'.
Proof.
  revert s. induction actions as [| a rest IH]; intros s Hinv Hall; simpl.
  - by exists s.
  - apply Forall_cons in Hall as [Ha Hrest].
    assert (Hstep : exists s1, perform a s = Some s1 /\ image_invariant s1).
    { destruct a as [u | index | e]; simpl.
      - by apply addImage_invariant.
      - by apply handleRemoveImage_invariant.
      - destruct Ha as [H1 H2]. eexists. split; [reflexivity |].
        by apply handleModalInputChange_invariant. }
    destruct Hstep as (s1 & Hrun & Hinv1). rewrite Hrun. simpl.
    by apply IH.
Qed.

(** X8: every sequence of edits the form allows (adding URLs, removing
    images at any indices, changing controls other than the image
    properties) is defined on a state with the image invariant and ends in a
    state that holds at most four images, counting the primary image when
    its slot is filled and every secondary slot, and that displays at most
    four. *)
Theorem performAll_keeps_invariant (actions : list DraftAction) (s : State) :
  image_invariant s -> Forall keeps_images actions ->
  exists s' subs',
    performAll actions s = Some s' /\
    secondaries s' = Some subs' /\
    (if truthy (primary s') then 1 else 0) + Z.of_nat (length subs') <= 4 /\
    (forall shown, allImages s' = Some shown -> (length shown <= 4)%nat).
Proof.
  intros Hinv Hall.
  destruct (performAll_invariant actions s Hinv Hall)
    as (s' & Hrun & subs' & Hsubs' & Hle').
  exists s', subs'. split; [exact Hrun |]. split; [exact Hsubs' |].
  split; [exact Hle' |]. intros shown. by apply (allImages_bound s' subs').
Qed.

Lemma performAll_keeps_invariant_witness :
  image_invariant (editing initialProduct) /\
  Forall keeps_images
    [AddImage "a.png"; AddImage "b.png"; AddImage "c.png"; AddImage "d.png";
     Change (number_event "price" "-5"); AddImage "e.png"; AddImage "f.png";
     RemoveImage 7; RemoveImage 0; AddImage ""; AddImage "g.png"] /\
  exists s' subs',
    performAll
      [AddImage "a.png"; AddImage "b.png"; AddImage "c.png"; AddImage "d.png";
       Change (number_event "price" "-5"); AddImage "e.png"; AddImage "f.png";
       RemoveImage 7; RemoveImage 0; AddImage ""; AddImage "g.png"]
      (editing initialProduct) = Some s' /\
    secondaries s' = Some subs' /\
    (if truthy (primary s') then 1 else 0) + Z.of_nat (length subs') <= 4 /\
    (forall shown, allImages s' = Some shown -> (length shown <= 4)%nat).
Proof.
  assert (Hall : Forall keeps_images
            [AddImage "a.png"; AddImage "b.png"; AddImage "c.png"; AddImage "d.png";
             Change (number_event "price" "-5"); AddImage "e.png"; AddImage "f.png";
             RemoveImage 7; RemoveImage 0; AddImage ""; AddImage "g.png"]).
  { repeat constructor; discriminate. }
  split; [exact image_invariant_blank |]. split; [exact Hall |].
  exact (performAll_keeps_invariant _ _ image_invariant_blank Hall).
Defined.

Example performAll_refuses_fifth :
  (s ← performAll
         [AddImage "a.png"; AddImage "b.png"; AddImage "c.png"; AddImage "d.png";
          Change (number_event "price" "-5"); AddImage "e.png"; AddImage "f.png";
          RemoveImage 7; RemoveImage 0; AddImage ""; AddImage "g.png"]
         (editing initialProduct);
   Some (primary s, secondaries s, get (templateProduct s) "price")) =
  Some (JStr "b.png", Some [JStr "c.png"; JStr "d.png"; JStr "g.png"],
        JNum (S754_zero false)).
Proof. vm_compute. reflexivity. Qed.

Example performAll_sample :
  (s ← performAll
         [AddImage "a.png"; Change (number_event "price" "-5"); AddImage "b.png";
          RemoveImage 0; RemoveImage 7; AddImage ""; AddImage "c.png"]
         (editing initialProduct);
   Some (primary s, secondaries s, get (templateProduct s) "price")) =
  Some (JStr "b.png", Some [JStr "c.png"], JNum (S754_zero false)).
Proof. vm_compute. reflexivity. Qed.

(** *** More on the error formatter and the form *)

(** X9: the formatter never returns a falsy value: whatever the error,
    the alerts and console lines built from it carry a non-empty message,
    which is one of the three candidates. *)
Theorem getErrorMessage_never_empty (error : Error) :
  truthy (getErrorMessage error) = true /\
  getErrorMessage error <> JStr "" /\ getErrorMessage error <> JUndefined /\
  (getErrorMessage error = response_message error \/
   getErrorMessage error = message error \/
   getErrorMessage error = JStr unknown_error).
Proof.
  assert (Htruthy : truthy (getErrorMessage error) = true /\
            (getErrorMessage error = response_message error \/
             getErrorMessage error = message error \/
             getErrorMessage error = JStr unknown_error)).
  { unfold getErrorMessage, or_else.
    destruct (truthy (response_message error)) eqn:H1; [rewrite H1; auto |].
    destruct (truthy (message error)) eqn:H2; [rewrite H2; auto |].
    split; [reflexivity | auto]. }
  destruct Htruthy as [Htruthy Hcases].
  split; [exact Htruthy |]. split; [| split; [| exact Hcases]].
  - intros Heq. rewrite Heq in Htruthy. discriminate.
  - intros Heq. rewrite Heq in Htruthy. discriminate.
Qed.

Lemma productData_run (text : Failure -> string) (draft : Obj) (l : list val) :
  get draft "imagesUrl" = JArr l ->
  productData text draft =
    Normal
      (<["imagesUrl" := JArr (List.filter (fun u => negb (strict_eq u (JStr ""))) l)]>
         (<["is_enabled" := if truthy (get draft "is_enabled") then one else zero]>
            (<["price" := JNum (to_number (get draft "price"))]>
               (<["origin_price" := JNum (to_number (get draft "origin_price"))]>
                  draft)))).
Proof. intros H. unfold productData. by rewrite H. Qed.

Lemma productData_price (text : Failure -> string) (draft : Obj) (l : list val)
    (field : string) :
  get draft "imagesUrl" = JArr l ->
  field = "price" \/ field = "origin_price" ->
  exists data,
    productData text draft = Normal data /\
    get data field = JNum (to_number (get draft field)).
Proof.
  intros Harr Hfield. eexists. split; [by apply productData_run |].
  destruct Hfield as [-> | ->].
  - rewrite !get_insert_ne by discriminate. apply get_insert_eq.
  - rewrite !get_insert_ne by discriminate. apply get_insert_eq.
Qed.

Lemma handleModalInputChange_stored_number (e : Target) (s : State) :
  type e = "number" ->
  get (templateProduct (handleModalInputChange e s)) (name e) =
    (if String.eqb (value e) "" then JStr ""
     else if lt (string_to_number (value e)) (S754_zero false)
          then JNum (S754_zero false)
          else JStr (value e)).
Proof.
  intros Hty. unfold handleModalInputChange. rewrite Hty. simpl.
  by rewrite get_insert_eq.
Qed.

(** X10: after a change on one of the two numeric price fields, whatever
    was typed, the record built at submit time holds under that field a
    number that is not below zero: [0] for an empty input or one that
    parses below zero, and the parsed input otherwise. *)
Theorem numeric_change_submits_no_negative (text : Failure -> string)
    (e : Target) (s : State) (l : list val) :
  type e = "number" ->
  name e = "price" \/ name e = "origin_price" ->
  get (templateProduct s) "imagesUrl" = JArr l ->
  exists data n,
    productData text (templateProduct (handleModalInputChange e s)) = Normal data /\
    get data (name e) = JNum n /\
    lt n (S754_zero false) = false /\
    n = (if String.eqb (value e) "" then S754_zero false
         else if lt (string_to_number (value e)) (S754_zero false)
              then S754_zero false
              else string_to_number (value e)).
Proof.
  intros Hty Hname Harr.
  assert (Hne : name e <> "imagesUrl") by (destruct Hname as [-> | ->]; discriminate).
  assert (Harr' : get (templateProduct (handleModalInputChange e s)) "imagesUrl" = JArr l).
  { unfold handleModalInputChange. simpl. by rewrite get_insert_ne. }
  destruct (productData_price text _ l (name e) Harr' Hname) as (data & Hrun & Hget).
  exists data. eexists. split; [exact Hrun |]. split; [exact Hget |].
  rewrite (handleModalInputChange_stored_number e s Hty).
  destruct (String.eqb (value e) ""); [by split |].
  destruct (lt (string_to_number (value e)) (S754_zero false)) eqn:Hneg; by split.
Qed.

Lemma numeric_change_submits_no_negative_witness :
  exists data,
    productData v8_text
      (templateProduct (handleModalInputChange (number_event "price" "-5")
                          (editing sample_product))) = Normal data /\
    get data "price" = JNum (S754_zero false).
Proof.
  destruct (numeric_change_submits_no_negative v8_text
              (number_event "price" "-5") (editing sample_product)
              [JStr "b.png"; JStr ""; JStr "c.png"]
              eq_refl (or_introl eq_refl) eq_refl)
    as (data & n & Hrun & Hget & _ & Hn).
  exists data. split; [exact Hrun |].
  etransitivity; [exact Hget |]. rewrite Hn. vm_compute. reflexivity.
Defined.

Example cleared_price_submits_zero :
  match productData v8_text
          (templateProduct (handleModalInputChange (number_event "price" "")
                              (editing sample_product))) with
  | Normal data => Some (get data "price")
  | Thrown _ => None
  end = Some (JNum (S754_zero false)).
Proof. vm_compute. reflexivity. Qed.

(** X11: after a change of the checkbox named [is_enabled], the record
    built at submit time has [is_enabled] equal to [1] when the box is
    checked and to [0] when it is not, whatever the draft held before and
    whatever the event's [value]. *)
Theorem checkbox_change_submits_flag (text : Failure -> string)
    (e : Target) (s : State) (l : list val) :
  type e = "checkbox" -> name e = "is_enabled" ->
  get (templateProduct s) "imagesUrl" = JArr l ->
  get (templateProduct (handleModalInputChange e s)) "is_enabled" = JBool (checked e) /\
  exists data,
    productData text (templateProduct (handleModalInputChange e s)) = Normal data /\
    get data "is_enabled" = (if checked e then one else zero).
Proof.
  intros Hty Hname Harr.
  assert (Hstored : get (templateProduct (handleModalInputChange e s)) "is_enabled"
                    = JBool (checked e)).
  { unfold handleModalInputChange. rewrite Hty, Hname. simpl. apply get_insert_eq. }
  split; [exact Hstored |].
  eexists. split.
  - apply (productData_run text _ l).
    unfold handleModalInputChange. rewrite Hname. simpl.
    by rewrite get_insert_ne by discriminate.
  - rewrite get_insert_ne by discriminate. rewrite get_insert_eq, Hstored.
    reflexivity.
Qed.

Lemma checkbox_change_submits_flag_witness :
  exists data,
    productData v8_text
      (templateProduct (handleModalInputChange (checkbox_event "is_enabled" false)
                          (editing sample_product))) = Normal data /\
    get data "is_enabled" = zero.
Proof.
  exact (proj2 (checkbox_change_submits_flag v8_text
                  (checkbox_event "is_enabled" false) (editing sample_product)
                  [JStr "b.png"; JStr ""; JStr "c.png"] eq_refl eq_refl eq_refl)).
Defined.

(** X12: the clamp to zero belongs to numeric inputs only. A control that
    is neither a checkbox nor a numeric input stores its value verbatim and
    changes no other property of the draft; if it is named after a price
    field, the record built at submit time holds the number its text parses
    to, a negative one included. *)
Theorem handleModalInputChange_verbatim (text : Failure -> string)
    (e : Target) (s : State) :
  type e <> "checkbox" -> type e <> "number" ->
  get (templateProduct (handleModalInputChange e s)) (name e) = JStr (value e) /\
  (forall k, k <> name e ->
     templateProduct (handleModalInputChange e s) !! k = templateProduct s !! k) /\
  (forall l,
     name e = "price" \/ name e = "origin_price" ->
     get (templateProduct s) "imagesUrl" = JArr l ->
     exists data,
       productData text (templateProduct (handleModalInputChange e s)) = Normal data /\
       get data (name e) = JNum (string_to_number (value e))).
Proof.
  intros H1 H2.
  assert (Hstored : get (templateProduct (handleModalInputChange e s)) (name e)
                    = JStr (value e)).
  { unfold handleModalInputChange.
    apply String.eqb_neq in H1, H2. rewrite H1, H2. simpl. apply get_insert_eq. }
  split; [exact Hstored |]. split.
  - intros k Hk. unfold handleModalInputChange. simpl. by rewrite lookup_insert_ne.
  - intros l Hname Harr.
    assert (Hne : name e <> "imagesUrl") by (destruct Hname as [-> | ->]; discriminate).
    assert (Harr' : get (templateProduct (handleModalInputChange e s)) "imagesUrl" = JArr l).
    { unfold handleModalInputChange. simpl. by rewrite get_insert_ne. }
    destruct (productData_price text _ l (name e) Harr' Hname) as (data & Hrun & Hget).
    exists data. split; [exact Hrun |]. by rewrite Hget, Hstored.
Qed.

Lemma handleModalInputChange_verbatim_witness :
  get (templateProduct (handleModalInputChange (text_event "price" "-5")
                          (editing sample_product))) "price" = JStr "-5" /\
  exists data,
    productData v8_text
      (templateProduct (handleModalInputChange (text_event "price" "-5")
                          (editing sample_product))) = Normal data /\
    get data "price" = JNum (string_to_number "-5") /\
    lt (string_to_number "-5") (S754_zero false) = true.
Proof.
  destruct (handleModalInputChange_verbatim v8_text (text_event "price" "-5")
              (editing sample_product) ltac:(discriminate) ltac:(discriminate))
    as (Hstored & _ & Hsubmit).
  split; [exact Hstored |].
  destruct (Hsubmit [JStr "b.png"; JStr ""; JStr "c.png"] (or_introl eq_refl) eq_refl)
    as (data & Hrun & Hget).
  exists data. split; [exact Hrun |]. split; [exact Hget |].
  vm_compute. reflexivity.
Defined.

(** *** The modal, continued *)

Lemma openModal_draft_lookup (mode : string) (p : Obj) (s : State) (k : string) :
  templateProduct (openModal mode (Some p) s) !! k =
    match p !! k with Some v => Some v | None => initialProduct !! k end.
Proof. simpl. rewrite lookup_union. by destruct (p !! k), (initialProduct !! k). Qed.

(** X13: a product listed without [imagesUrl] can be opened and saved: the
    blank template supplies the empty array, and the record built has no
    images. A product that carries something else than an array under
    [imagesUrl] keeps it in the draft, and saving then raises a [TypeError]
    out of [updateProduct], for reading [filter] of [null] or of
    [undefined], or for calling a [filter] that is no function (on a
    boolean, a number or a string): no request is sent, no alert is raised,
    and the state stays as it was. *)
Theorem openModal_then_save (serve : list Request -> Request -> Reply)
    (text : Failure -> string) (mode : string) (p : Obj) (s : State) :
  (p !! "imagesUrl" = None ->
   exists data,
     productData text (templateProduct (openModal mode (Some p) s)) = Normal data /\
     get data "imagesUrl" = JArr []) /\
  (forall v,
     p !! "imagesUrl" = Some v -> (forall l, v <> JArr l) ->
     updateProduct serve text (openModal mode (Some p) s) =
       (Thrown (TypeError text
                  match v with
                  | JUndefined => ReadOfUndefined "filter"
                  | JNull => ReadOfNull "filter"
                  | _ => NotAFunction "templateProduct.imagesUrl.filter"
                  end),
        openModal mode (Some p) s)).
Proof.
  split.
  - intros Hnone.
    assert (Harr : get (templateProduct (openModal mode (Some p) s)) "imagesUrl" = JArr []).
    { unfold get. rewrite openModal_draft_lookup, Hnone. reflexivity. }
    eexists. split; [by apply (productData_run text _ [])|].
    apply get_insert_eq.
  - intros v Hv Hne.
    assert (Hdraft : get (templateProduct (openModal mode (Some p) s)) "imagesUrl" = v).
    { unfold get. by rewrite openModal_draft_lookup, Hv. }
    rewrite updateProduct_without_array.
    + by rewrite Hdraft.
    + intros l. rewrite Hdraft. apply Hne.
Qed.

Lemma openModal_then_save_witness :
  (exists data,
     productData v8_text (templateProduct (openModal "edit" (Some bare_product) initialState))
       = Normal data /\
     get data "imagesUrl" = JArr []) /\
  updateProduct serve_ok v8_text (openModal "edit" (Some null_images_product) initialState) =
    (Thrown {| response := None;
               message := JStr "Cannot read properties of null (reading 'filter')" |},
     openModal "edit" (Some null_images_product) initialState) /\
  updateProduct serve_ok v8_text (openModal "edit" (Some text_images_product) initialState) =
    (Thrown {| response := None;
               message := JStr "templateProduct.imagesUrl.filter is not a function" |},
     openModal "edit" (Some text_images_product) initialState).
Proof.
  split; [| split].
  - apply (proj1 (openModal_then_save serve_ok v8_text "edit" bare_product initialState)).
    reflexivity.
  - apply (proj2 (openModal_then_save serve_ok v8_text "edit" null_images_product
                    initialState) JNull); [reflexivity | discriminate].
  - apply (proj2 (openModal_then_save serve_ok v8_text "edit" text_images_product
                    initialState) (JStr "a.png")); [reflexivity | discriminate].
Defined.

(** X14: what the modal shows hangs together for the four modes, and only
    for them. The save button is in the footer exactly when the body is the
    form (modes [add] and [edit]); the delete button exactly when the body
    is the delete question; the preview has no footer at all. Every mode
    other than [preview], [add] and [edit] gets the delete question with the
    delete button, yet the title says delete only for the mode [delete]: any
    other such mode is titled as an edit. *)
Theorem modal_view_by_mode (s : State) :
  (modalBody s = PreviewCard <-> modeType s = "preview") /\
  (modalBody s = ProductForm <-> modeType s = "add" \/ modeType s = "edit") /\
  (In SaveButton (modalFooter s) <-> modalBody s = ProductForm) /\
  (In DeleteButton (modalFooter s) <-> modalBody s = DeleteConfirmation) /\
  (modalFooter s = [] <-> modalBody s = PreviewCard) /\
  (modalTitle s = "刪除商品" <-> modeType s = "delete") /\
  (modalBody s = DeleteConfirmation -> modeType s <> "delete" ->
   modalTitle s = "編輯商品" /\ modalHeaderClass s = "bg-danger").
Proof.
  unfold modalBody, modalFooter, modalTitle, modalHeaderClass, isPreview, isFormMode.
  destruct (String.eqb_spec (modeType s) "preview") as [Hp | Hp];
    destruct (String.eqb_spec (modeType s) "add") as [Ha | Ha];
    destruct (String.eqb_spec (modeType s) "edit") as [He | He];
    destruct (String.eqb_spec (modeType s) "delete") as [Hd | Hd];
    simpl; try congruence;
    repeat split; try congruence; try tauto; try discriminate;
    try (intros [? | ?]; congruence);
    try (intros [? | [? | ?]]; congruence || tauto);
    try (intros [? | [? | [? | ?]]]; congruence || tauto);
    auto.
Qed.

Lemma modal_view_by_mode_witness :
  modalBody (with_modeType "" initialState) = DeleteConfirmation /\
  modalTitle (with_modeType "" initialState) = "編輯商品" /\
  modalHeaderClass (with_modeType "" initialState) = "bg-danger".
Proof.
  split; [reflexivity |].
  apply (proj2 (proj2 (proj2 (proj2 (proj2 (proj2
           (modal_view_by_mode (with_modeType "" initialState)))))))).
  - reflexivity.
  - discriminate.
Defined.

(** *** More on the handlers with effects *)

Section Sessions.

Variable serve : list Request -> Request -> Reply.
Variable typeErrorText : Failure -> string.


(** X16: [handleLogout] always ends, without raising, in the logged-out
    state: no stored credential, [isAuth] false, an empty product list,
    no loading indicator. The logout request is sent only when a token is
    stored, with that token; when it is rejected the error is written to
    the console and no dialog is raised, otherwise the success dialog is
    raised. *)
Theorem handleLogout_always_clears (s : State) :
  exists s',
    handleLogout serve s = (Normal tt, s') /\
    credential s' = None /\ getToken s' = JUndefined /\
    isAuth s' = false /\ products s' = [] /\ isLoading s' = false /\
    templateProduct s' = templateProduct s /\
    trace s' =
      trace s ++
      (if truthy (getToken s) then
         match serve (requests (trace s)) (logout_request (getToken s)) with
         | Fulfilled _ =>
             [Sent (logout_request (getToken s)); Alert [Lit "已成功登出！"]]
         | Rejected error =>
             [Sent (logout_request (getToken s));
              ConsoleError [JStr "API 錯誤:"; getErrorMessage error]]
         end
       else [Alert [Lit "已成功登出！"]])
      ++ [SetIsAuth false].
Proof.
  unfold handleLogout, auth_post, send. unfold_action. simpl.
  change (getToken (with_isLoading true s)) with (getToken s).
  destruct (truthy (getToken s)); simpl.
  - fold (logout_request (getToken s)).
    destruct (serve _ _); simpl; eexists; (split; [reflexivity |]); simpl;
      repeat split; by rewrite <- !app_assoc.
  - eexists. split; [reflexivity |]. simpl. repeat split.
    by rewrite <- !app_assoc.
Qed.

(** X17: [checkAdmin] never raises and always ends with the loading
    indicator and the checking flag off and the stored credential as it
    was. Afterwards [isAuth] is true exactly when a token is stored and the
    verification request is fulfilled with a truthy [success]; in every
    other case it is false, whatever it was before. *)
Theorem checkAdmin_authenticates_iff_verified (s : State) :
  exists s',
    checkAdmin serve s = (Normal tt, s') /\
    isLoading s' = false /\ isCheckingAuth s' = false /\
    credential s' = credential s /\ templateProduct s' = templateProduct s /\
    (isAuth s' = true <->
       truthy (getToken s) = true /\
       exists res,
         serve (requests (trace s)) (check_request (getToken s)) = Fulfilled res /\
         truthy (success res) = true).
Proof.
  unfold checkAdmin, auth_post, send. unfold_action. simpl.
  change (getToken (with_isCheckingAuth true (with_isLoading true s)))
    with (getToken s).
  destruct (truthy (getToken s)) eqn:Htoken; simpl.
  - fold (check_request (getToken s)).
    destruct (serve _ (check_request (getToken s))) as [res | error] eqn:Hreply; simpl.
    + destruct (truthy (success res)) eqn:Hsuccess.
      * rewrite getProducts_run. simpl.
        eexists. split; [reflexivity |].
        destruct (serve _ (products_request _)); simpl;
          (repeat split; try done); eauto.
      * eexists. split; [reflexivity |]. simpl. repeat split; try done.
        intros (_ & res' & [= <-] & Hyes). congruence.
    + eexists. split; [reflexivity |]. simpl. repeat split; try done.
      intros (_ & res' & Hno & _). discriminate.
  - eexists. split; [reflexivity |]. simpl. repeat split; try done.
    intros (Hno & _). discriminate.
Qed.

(** X18: on a draft from which a record is built, [updateProduct] sends it
    with POST [product] in the mode [add] and with PUT [product/{id}] in
    every other mode, and never raises. When that request is rejected, the
    alert names the failed operation (create or update) with the formatted
    error, the modal stays as it is and neither the list nor the draft
    changes. When it is fulfilled, the list is requested again and the
    modal is hidden, also when that second request fails. *)
Theorem updateProduct_outcomes (s : State) (data : Obj) :
  productData typeErrorText (templateProduct s) = Normal data ->
  (forall error,
     serve (requests (trace s))
       (save_request (getToken s) (modeType s) (templateProduct s) data)
       = Rejected error ->
     exists s',
       updateProduct serve typeErrorText s = (Normal tt, s') /\
       modalShown s' = modalShown s /\ products s' = products s /\
       templateProduct s' = templateProduct s /\
       trace s' =
         trace s ++
         [Sent (save_request (getToken s) (modeType s) (templateProduct s) data);
          Alert (if String.eqb (modeType s) "add"
                 then [Lit "新增失敗："; Sub (getErrorMessage error); Lit "!"]
                 else [Lit "更新失敗："; Sub (getErrorMessage error); Lit "!"])]) /\
  (forall res,
     serve (requests (trace s))
       (save_request (getToken s) (modeType s) (templateProduct s) data)
       = Fulfilled res ->
     exists s',
       updateProduct serve typeErrorText s = (Normal tt, s') /\
       modalShown s' = false /\ templateProduct s' = templateProduct s /\
       match serve
               (requests (trace s) ++
                [save_request (getToken s) (modeType s) (templateProduct s) data])
               (products_request (getToken s)) with
       | Fulfilled listing =>
           products s' = body_products listing /\
           trace s' =
             trace s ++
             [Sent (save_request (getToken s) (modeType s) (templateProduct s) data);
              Alert (if String.eqb (modeType s) "add"
                     then [Lit "已新增產品！"] else [Sub (body_message res)]);
              Sent (products_request (getToken s))]
       | Rejected error =>
           products s' = products s /\
           trace s' =
             trace s ++
             [Sent (save_request (getToken s) (modeType s) (templateProduct s) data);
              Alert (if String.eqb (modeType s) "add"
                     then [Lit "已新增產品！"] else [Sub (body_message res)]);
              Sent (products_request (getToken s));
              ConsoleError [JStr "API 錯誤:"; getErrorMessage error]]
       end).
Proof.
  intros Hbuilt. unfold save_request.
  destruct (String.eqb (modeType s) "add") eqn:Hmode.
  - split.
    + intros error Hreply. eexists. split.
      * unfold updateProduct. unfold_action. cbv beta. rewrite Hbuilt, Hmode.
        unfold admin, send. fold (header (getToken s)).
        rewrite Hreply. reflexivity.
      * simpl. repeat split. by rewrite <- !app_assoc.
    + intros res Hreply. eexists. split.
      * unfold updateProduct. unfold_action. cbv beta. rewrite Hbuilt, Hmode.
        unfold admin, send. fold (header (getToken s)).
        rewrite Hreply. simpl. rewrite getProducts_run. simpl. reflexivity.
      * simpl. rewrite !requests_emit. simpl. rewrite app_nil_r.
        change (getToken _) with (getToken s).
        destruct (serve _ (products_request (getToken s))); simpl;
          repeat split; by rewrite <- !app_assoc.
  - split.
    + intros error Hreply. eexists. split.
      * unfold updateProduct. unfold_action. cbv beta. rewrite Hbuilt, Hmode.
        unfold admin, send. fold (header (getToken s)).
        rewrite Hreply. reflexivity.
      * simpl. repeat split. by rewrite <- !app_assoc.
    + intros res Hreply. eexists. split.
      * unfold updateProduct. unfold_action. cbv beta. rewrite Hbuilt, Hmode.
        unfold admin, send. fold (header (getToken s)).
        rewrite Hreply. simpl. rewrite getProducts_run. simpl. reflexivity.
      * simpl. rewrite !requests_emit. simpl. rewrite app_nil_r.
        change (getToken _) with (getToken s).
        destruct (serve _ (products_request (getToken s))); simpl;
          repeat split; by rewrite <- !app_assoc.
Qed.

(** X19: [deleteProduct] never raises. A rejected request raises the alert
    of a failed deletion with the formatted error and leaves the modal, the
    list and the draft as they are; a fulfilled one shows the backend's
    message, requests the list again and hides the modal. *)
Theorem deleteProduct_outcomes (id : val) (s : State) :
  (forall error,
     serve (requests (trace s)) (delete_request (getToken s) id) = Rejected error ->
     exists s',
       deleteProduct serve id s = (Normal tt, s') /\
       modalShown s' = modalShown s /\ products s' = products s /\
       templateProduct s' = templateProduct s /\
       trace s' =
         trace s ++
         [Sent (delete_request (getToken s) id);
          Alert [Lit "刪除失敗："; Sub (getErrorMessage error); Lit "!"]]) /\
  (forall res,
     serve (requests (trace s)) (delete_request (getToken s) id) = Fulfilled res ->
     exists s',
       deleteProduct serve id s = (Normal tt, s') /\
       modalShown s' = false /\
       match serve (requests (trace s) ++ [delete_request (getToken s) id])
               (products_request (getToken s)) with
       | Fulfilled listing =>
           products s' = body_products listing /\
           trace s' =
             trace s ++
             [Sent (delete_request (getToken s) id); Alert [Sub (body_message res)];
              Sent (products_request (getToken s))]
       | Rejected error =>
           products s' = products s /\
           trace s' =
             trace s ++
             [Sent (delete_request (getToken s) id); Alert [Sub (body_message res)];
              Sent (products_request (getToken s));
              ConsoleError [JStr "API 錯誤:"; getErrorMessage error]]
       end).
Proof.
  split.
  - intros error Hreply. eexists. split.
    + unfold deleteProduct, admin, send. unfold_action. simpl.
      fold (header (getToken s)). fold (delete_request (getToken s) id).
      rewrite Hreply. simpl. reflexivity.
    + simpl. repeat split. by rewrite <- !app_assoc.
  - intros res Hreply. eexists. split.
    + unfold deleteProduct, admin, send. unfold_action. simpl.
      fold (header (getToken s)). fold (delete_request (getToken s) id).
      rewrite Hreply. simpl. rewrite getProducts_run. simpl. reflexivity.
    + simpl. rewrite !requests_emit. simpl. rewrite app_nil_r.
      change (getToken _) with (getToken s).
      destruct (serve _ (products_request (getToken s))); simpl;
        repeat split; by rewrite <- !app_assoc.
Qed.

End Sessions.

Section Toggling.

Variable serve : list Request -> Request -> Reply.
Variable typeErrorText : Failure -> string.

Lemma find_map_same_id (id : val) (f : Obj -> Obj) (l : list Obj) :
  (forall x, get (f x) "id" = get x "id") ->
  List.find (fun product => strict_eq (get product "id") id) (map f l) =
  f <$> List.find (fun product => strict_eq (get product "id") id) l.
Proof.
  intros Hid. induction l as [| x l IH]; simpl; [done |].
  rewrite Hid. by destruct (strict_eq (get x "id") id).
Qed.

Lemma set_enabled_same_id (id w : val) (x : Obj) :
  get (if strict_eq (get x "id") id then <["is_enabled" := w]> x else x) "id"
  = get x "id".
Proof.
  destruct (strict_eq (get x "id") id); [| done].
  by rewrite get_insert_ne by discriminate.
Qed.

(** The state after a status update whose request is fulfilled. *)
Lemma updateProductStatus_fulfilled (id : val) (s : State) (target : Obj) (res : Body) :
  List.find (fun product => strict_eq (get product "id") id) (products s) = Some target ->
  serve (requests (trace s))
    (status_request (getToken s) id
       (<["is_enabled" := toggled (get target "is_enabled")]> target))
    = Fulfilled res ->
  updateProductStatus serve typeErrorText id s =
    (Normal tt,
     with_products
       (map (fun item =>
               if strict_eq (get item "id") id
               then <["is_enabled" := toggled (get target "is_enabled")]> item
               else item)
          (products s))
       (emit (Alert [Sub (body_message res)])
          (emit (Sent (status_request (getToken s) id
                         (<["is_enabled" := toggled (get target "is_enabled")]> target)))
             s))).
Proof.
  intros Hfind Hreply.
  unfold updateProductStatus, admin, send. unfold_action. simpl.
  rewrite Hfind. simpl.
  fold (header (getToken s)).
  fold (status_request (getToken s) id
          (<["is_enabled" := toggled (get target "is_enabled")]> target)).
  rewrite Hreply. simpl. by rewrite get_insert_eq.
Qed.

(** X20: toggling the same product twice, both requests being fulfilled,
    gives back the product list there was, provided the products with that
    id hold [0] or [1] under [is_enabled] and agree on it; the list in
    between is a different one, and the second request carries the product
    as it was at first. *)
Theorem updateProductStatus_twice_restores (id v : val) (s : State) (target : Obj)
    (res1 res2 : Body) :
  List.find (fun product => strict_eq (get product "id") id) (products s) = Some target ->
  v = zero \/ v = one ->
  (forall item, In item (products s) -> strict_eq (get item "id") id = true ->
     item !! "is_enabled" = Some v) ->
  serve (requests (trace s))
    (status_request (getToken s) id (<["is_enabled" := toggled v]> target))
    = Fulfilled res1 ->
  serve (requests (trace s) ++
         [status_request (getToken s) id (<["is_enabled" := toggled v]> target)])
    (status_request (getToken s) id target)
    = Fulfilled res2 ->
  exists s1 s2,
    updateProductStatus serve typeErrorText id s = (Normal tt, s1) /\
    products s1 <> products s /\
    updateProductStatus serve typeErrorText id s1 = (Normal tt, s2) /\
    products s2 = products s.
Proof.
  intros Hfind Hv Hall Hreply1 Hreply2.
  pose proof (find_some _ _ Hfind) as [Hin Hid].
  pose proof (Hall target Hin Hid) as Hflag.
  assert (Hget : get target "is_enabled" = v) by (unfold get; by rewrite Hflag).
  assert (Hback : toggled (toggled v) = v) by (by destruct Hv as [-> | ->]).
  assert (Hdiff : toggled v <> v) by (destruct Hv as [-> | ->]; discriminate).
  pose proof (updateProductStatus_fulfilled id s target res1 Hfind) as Hrun1.
  rewrite Hget in Hrun1. specialize (Hrun1 Hreply1).
  eexists. eexists. split; [exact Hrun1 |].
  assert (Hfind1 :
    List.find (fun product => strict_eq (get product "id") id)
      (map (fun item =>
              if strict_eq (get item "id") id
              then <["is_enabled" := toggled v]> item else item) (products s))
    = Some (<["is_enabled" := toggled v]> target)).
  { rewrite find_map_same_id by (intros x; apply set_enabled_same_id).
    rewrite Hfind. simpl. by rewrite Hid. }
  split.
  - simpl. intros Hsame.
    apply list_elem_of_In, list_elem_of_lookup in Hin as [i Hi].
    assert (Hi' : map (fun item =>
                         if strict_eq (get item "id") id
                         then <["is_enabled" := toggled v]> item else item)
                    (products s) !! i = Some (<["is_enabled" := toggled v]> target)).
    { rewrite list_lookup_fmap, Hi. simpl. by rewrite Hid. }
    rewrite Hsame, Hi in Hi'. injection Hi' as Hi'.
    assert (Hlook : target !! "is_enabled" = Some (toggled v)).
    { rewrite Hi'. apply lookup_insert_eq. }
    congruence.
  - match type of Hrun1 with _ = (_, ?st) => set (s1 := st) in * end.
    assert (Hdata : <["is_enabled" := toggled (get (<["is_enabled" := toggled v]> target)
                                              "is_enabled")]>
                      (<["is_enabled" := toggled v]> target) = target).
    { rewrite get_insert_eq, Hback, insert_insert_eq. by apply insert_id. }
    pose proof (updateProductStatus_fulfilled id s1
                  (<["is_enabled" := toggled v]> target) res2 Hfind1) as Hrun2.
    rewrite Hdata in Hrun2.
    assert (Hhistory : requests (trace s1) =
              requests (trace s) ++
              [status_request (getToken s) id (<["is_enabled" := toggled v]> target)]).
    { subst s1. simpl. rewrite !requests_emit. simpl. by rewrite app_nil_r. }
    rewrite Hhistory in Hrun2. specialize (Hrun2 Hreply2).
    split; [exact Hrun2 |].
    simpl. rewrite get_insert_eq, Hback, map_map.
    rewrite <- (map_id (products s)) at 2.
    apply map_ext_in. intros item Hitem.
    destruct (strict_eq (get item "id") id) eqn:Hitem_id.
    + rewrite get_insert_ne by discriminate. rewrite Hitem_id.
      rewrite insert_insert_eq. apply insert_id. by apply Hall.
    + by rewrite Hitem_id.
Qed.

End Toggling.

Lemma updateProductStatus_twice_restores_witness :
  exists s1 s2,
    updateProductStatus serve_ok v8_text (JStr "p1") signed_in = (Normal tt, s1) /\
    products s1 <> products signed_in /\
    updateProductStatus serve_ok v8_text (JStr "p1") s1 = (Normal tt, s2) /\
    products s2 = products signed_in.
Proof.
  apply (updateProductStatus_twice_restores serve_ok v8_text (JStr "p1") one
           signed_in listed_product sample_body sample_body).
  - reflexivity.
  - by right.
  - intros item [<- | [<- | []]]; [reflexivity | discriminate].
  - reflexivity.
  - reflexivity.
Defined.

Lemma updateProduct_outcomes_witness :
  (exists data,
     productData v8_text (templateProduct (openModal "edit" (Some sample_product) signed_in))
       = Normal data) /\
  (exists s',
     updateProduct serve_refusing v8_text (openModal "edit" (Some sample_product) signed_in)
       = (Normal tt, s') /\
     modalShown s' = true /\
     products s' = [listed_product; other_product]) /\
  (exists s',
     updateProduct serve_ok v8_text (openModal "add" (Some sample_product) signed_in)
       = (Normal tt, s') /\
     modalShown s' = false).
Proof.
  pose proof (productData_run v8_text
                (templateProduct (openModal "edit" (Some sample_product) signed_in))
                [JStr "b.png"; JStr ""; JStr "c.png"] eq_refl) as Hedit.
  pose proof (productData_run v8_text
                (templateProduct (openModal "add" (Some sample_product) signed_in))
                [JStr "b.png"; JStr ""; JStr "c.png"] eq_refl) as Hadd.
  split; [eexists; exact Hedit |]. split.
  - destruct (proj1 (updateProduct_outcomes serve_refusing v8_text _ _ Hedit)
                refused eq_refl)
      as (s' & Hrun & Hmodal & Hlist & _).
    exists s'. split; [exact Hrun |]. split; [exact Hmodal | exact Hlist].
  - destruct (proj2 (updateProduct_outcomes serve_ok v8_text _ _ Hadd)
                sample_body eq_refl)
      as (s' & Hrun & Hmodal & _).
    exists s'. split; [exact Hrun | exact Hmodal].
Defined.

Lemma deleteProduct_outcomes_witness :
  (exists s',
     deleteProduct serve_refusing (JStr "p1") (openModal "delete" (Some listed_product) signed_in)
       = (Normal tt, s') /\
     modalShown s' = true /\
     trace s' =
       [Sent (delete_request (JStr "tok") (JStr "p1"));
        Alert [Lit "刪除失敗："; Sub (JStr "denied"); Lit "!"]]) /\
  (exists s',
     deleteProduct serve_ok (JStr "p1") (openModal "delete" (Some listed_product) signed_in)
       = (Normal tt, s') /\
     modalShown s' = false).
Proof.
  split.
  - destruct (proj1 (deleteProduct_outcomes serve_refusing (JStr "p1")
                       (openModal "delete" (Some listed_product) signed_in))
                refused eq_refl)
      as (s' & Hrun & Hmodal & _ & _ & Htrace).
    exists s'. split; [exact Hrun |]. split; [exact Hmodal | exact Htrace].
  - destruct (proj2 (deleteProduct_outcomes serve_ok (JStr "p1")
                       (openModal "delete" (Some listed_product) signed_in))
                sample_body eq_refl)
      as (s' & Hrun & Hmodal & _).
    exists s'. split; [exact Hrun | exact Hmodal].
Defined.

Example handleLogout_sample :
  (handleLogout serve_down signed_in).1 = Normal tt /\
  credential (handleLogout serve_down signed_in).2 = None /\
  products (handleLogout serve_down signed_in).2 = [] /\
  trace (handleLogout serve_down signed_in).2 =
    [Sent (logout_request (JStr "tok"));
     ConsoleError [JStr "API 錯誤:"; JStr "Network Error"]; SetIsAuth false].
Proof. vm_compute. repeat split. Qed.

Example checkAdmin_resets_isAuth :
  isAuth (checkAdmin serve_down (with_isAuth true signed_in)).2 = false.
Proof. vm_compute. reflexivity. Qed.

Lemma filter_nonempty_idem (l : list val) :
  List.filter (fun u => negb (strict_eq u (JStr "")))
    (List.filter (fun u => negb (strict_eq u (JStr ""))) l) =
  List.filter (fun u => negb (strict_eq u (JStr ""))) l.
Proof.
  induction l as [| x l IH]; simpl; [done |].
  destruct (negb (strict_eq x (JStr ""))) eqn:Hx; simpl; [| exact IH].
  by rewrite Hx, IH.
Qed.

(** X21: the record built at submit time is in normal form: taken as the
    draft again (a saved product opened and saved without a change), it is
    built into itself, so the coercions of flag, prices and images apply
    once and for all. *)
Theorem productData_idempotent (text : Failure -> string) (draft data : Obj) :
  productData text draft = Normal data ->
  productData text data = Normal data.
Proof.
  intros Hbuilt. unfold productData in Hbuilt.
  destruct (get draft "imagesUrl") as [| | b | n | x | l] eqn:Harr; try discriminate.
  injection Hbuilt as <-.
  erewrite productData_run by apply get_insert_eq.
  f_equal.
  rewrite filter_nonempty_idem.
  rewrite (get_insert_ne _ "imagesUrl" "is_enabled") by discriminate.
  rewrite (get_insert_ne _ "imagesUrl" "price") by discriminate.
  rewrite (get_insert_ne _ "imagesUrl" "origin_price") by discriminate.
  rewrite get_insert_eq.
  rewrite (get_insert_ne _ "is_enabled" "price") by discriminate.
  rewrite (get_insert_ne _ "is_enabled" "origin_price") by discriminate.
  rewrite get_insert_eq.
  rewrite (get_insert_ne _ "price" "origin_price") by discriminate.
  rewrite get_insert_eq.
  assert (Hflag : (if truthy (if truthy (get draft "is_enabled") then one else zero)
                   then one else zero)
                  = (if truthy (get draft "is_enabled") then one else zero)).
  { by destruct (truthy (get draft "is_enabled")). }
  rewrite Hflag. simpl to_number.
  apply map_eq. intros k.
  destruct (decide (k = "imagesUrl")) as [-> | H1]; [by rewrite !lookup_insert_eq |].
  rewrite !(lookup_insert_ne _ "imagesUrl") by done.
  destruct (decide (k = "is_enabled")) as [-> | H2]; [by rewrite !lookup_insert_eq |].
  rewrite !(lookup_insert_ne _ "is_enabled") by done.
  destruct (decide (k = "price")) as [-> | H3]; [by rewrite !lookup_insert_eq |].
  rewrite !(lookup_insert_ne _ "price") by done.
  destruct (decide (k = "origin_price")) as [-> | H4]; [by rewrite !lookup_insert_eq |].
  by rewrite !lookup_insert_ne by done.
Qed.

Lemma productData_idempotent_witness :
  exists data,
    productData v8_text sample_product = Normal data /\
    productData v8_text data = Normal data.
Proof.
  pose proof (productData_run v8_text sample_product
                [JStr "b.png"; JStr ""; JStr "c.png"] eq_refl) as Hbuilt.
  eexists. split; [exact Hbuilt |].
  exact (productData_idempotent v8_text sample_product _ Hbuilt).
Defined.
